(** * Mind-Space: the local persistence layer and its derived queries

    A shallow embedding of [src/utils/storage.ts] (IndexedDB accessors,
    streak, weekly data) and of the components that build records
    ([StressQuiz.tsx], [Journal.tsx], and the save path of
    [MoodTracker.tsx]), over a small model of the browser: the IndexedDB
    database of the origin, the wall clock and the time-zone offset.

    Conventions.
    - An instant is a [Z]: milliseconds since 1970-01-01T00:00:00Z, the
      time value of a JavaScript [Date].
    - A date key is the ['YYYY-MM-DD'] string the code uses.
    - An asynchronous function is a state transformer on the [World] that
      either resolves with a value or rejects with an error. *)

From Stdlib Require Import ZArith Ascii String List Lia Bool.
From stdpp Require Import base option list gmap strings sorting.

Local Open Scope string_scope.
Local Open Scope Z_scope.

(* ===================================================================== *)
(** ** The JavaScript built-ins the code relies on *)
(* ===================================================================== *)

Module JS.

(** [1000 * 60 * 60 * 24] *)
Definition msPerDay : Z := 1000 * 60 * 60 * 24.

(** *** Proleptic Gregorian calendar (ECMAScript, clause "Time Values") *)

(** Day number (days since 1970-01-01) of the civil date [y-m-d]. *)
Definition days_from_civil (y m d : Z) : Z :=
  let y'  := if m <=? 2 then y - 1 else y in
  let era := y' / 400 in
  let yoe := y' - era * 400 in
  let mp  := if 2 <? m then m - 3 else m + 9 in
  let doy := (153 * mp + 2) / 5 + d - 1 in
  let doe := yoe * 365 + yoe / 4 - yoe / 100 + doy in
  era * 146097 + doe - 719468.

(** Civil date [(y, m, d)] of a day number. *)
Definition civil_from_days (days : Z) : Z * Z * Z :=
  let z   := days + 719468 in
  let era := z / 146097 in
  let doe := z - era * 146097 in
  let yoe := (doe - doe / 1460 + doe / 36524 - doe / 146096) / 365 in
  let doy := doe - (365 * yoe + yoe / 4 - yoe / 100) in
  let mp  := (5 * doy + 2) / 153 in
  let d   := doy - (153 * mp + 2) / 5 + 1 in
  let m   := if mp <? 10 then mp + 3 else mp - 9 in
  let y   := yoe + era * 400 in
  (if m <=? 2 then y + 1 else y, m, d).

(** *** Decimal digits *)

Definition digit (n : Z) : ascii := ascii_of_N (Z.to_N (48 + n mod 10)).

Definition pad2 (n : Z) : string :=
  String (digit (n / 10)) (String (digit n) EmptyString).

Definition pad4 (n : Z) : string :=
  String (digit (n / 1000)) (String (digit (n / 100)) (pad2 n)).

Definition digit_val (c : ascii) : option Z :=
  let n := Z.of_N (N_of_ascii c) in
  if (48 <=? n) && (n <=? 57) then Some (n - 48) else None.

Fixpoint number_of (acc : Z) (s : string) : option Z :=
  match s with
  | EmptyString => Some acc
  | String c s' =>
      match digit_val c with
      | Some v => number_of (acc * 10 + v) s'
      | None => None
      end
  end.

(** The date part of [toISOString()] and the output of date-fns
    [format(_, 'yyyy-MM-dd')], for a day number in years 0000..9999. *)
Definition toISODate (days : Z) : string :=
  let '(y, m, d) := civil_from_days days in
  pad4 y +:+ "-" +:+ pad2 m +:+ "-" +:+ pad2 d.

(** [new Date(s).getTime()] for a date-only string: the date-only ISO
    form is read as UTC midnight of that date.  Anything else this code
    never writes as a key is an Invalid Date ([None], a NaN time value). *)
Definition Date_parse (s : string) : option Z :=
  if negb (Nat.eqb (String.length s) 10) then None
  else
    match number_of 0 (substring 0 4 s),
          number_of 0 (substring 5 2 s),
          number_of 0 (substring 8 2 s) with
    | Some y, Some m, Some d =>
        if String.eqb (substring 4 1 s) "-" && String.eqb (substring 7 1 s) "-"
           && (1 <=? m) && (m <=? 12) && (1 <=? d) && (d <=? 31)
        then Some (days_from_civil y m d * msPerDay)
        else None
    | _, _, _ => None
    end.

(** *** Local time, for a zone with a fixed offset

    [tz] is the zone's offset east of UTC in milliseconds
    ([-getTimezoneOffset() * 60000]); [LocalTime(t) = t + tz]. *)

(** [d.setHours(0, 0, 0, 0); d.getTime()]: local midnight of the local
    day that contains [t]. *)
Definition setHours0 (tz t : Z) : Z :=
  ((t + tz) / msPerDay) * msPerDay - tz.

(** [d.setDate(d.getDate() - i)]: same local time of day, [i] local
    calendar days earlier. *)
Definition setDate_minus (t i : Z) : Z := t - i * msPerDay.

(** [d.toISOString().split('T')[0]]: the UTC calendar date of [t]. *)
Definition toISOString_date (t : Z) : string := toISODate (t / msPerDay).

(** date-fns [format(d, 'yyyy-MM-dd')]: the local calendar date of [t]. *)
Definition format_yyyy_MM_dd (tz t : Z) : string :=
  toISODate ((t + tz) / msPerDay).

(** *** Strings *)

(** [a.localeCompare(b)] on date keys: keys share one layout of ASCII
    digits and hyphens, on which collation is code-unit order. *)
Definition localeCompare (a b : string) : comparison := String.compare a b.

Definition is_white (c : ascii) : bool :=
  let n := N_of_ascii c in
  ((9 <=? n) && (n <=? 13))%N || (n =? 32)%N.

Fixpoint trimStart (s : string) : string :=
  match s with
  | String c s' => if is_white c then trimStart s' else s
  | EmptyString => EmptyString
  end.

(** [s.trimEnd()], by recursion from the right end. *)
Fixpoint trimEnd (s : string) : string :=
  match s with
  | EmptyString => EmptyString
  | String c s' =>
      match trimEnd s' with
      | EmptyString => if is_white c then EmptyString else String c EmptyString
      | t => String c t
      end
  end.

(** [s.trim()] on ASCII text. *)
Definition trim (s : string) : string := trimEnd (trimStart s).

(** *** Arrays *)

Section Sort.
Context {A : Type} (compareFn : A -> A -> comparison).

(** [x] goes before the first element it does not exceed. *)
Fixpoint sort_insert (x : A) (l : list A) : list A :=
  match l with
  | [] => [x]
  | y :: l' =>
      match compareFn x y with
      | Gt => y :: sort_insert x l'
      | _ => x :: l
      end
  end.

(** [arr.sort(compareFn)]: a stable sort. *)
Definition sort (l : list A) : list A := foldr sort_insert [] l.
End Sort.

End JS.


(* ===================================================================== *)
(** ** The records of [storage.ts] *)
(* ===================================================================== *)

Module MoodEntry.
Record t := mk {
  date : string;          (* YYYY-MM-DD, the primary key *)
  mood : string;          (* emoji *)
  note : option string }.
End MoodEntry.

(** ['Low' | 'Moderate' | 'High'] *)
Inductive Level := Low | Moderate | High.

Module StressQuizEntry.
Record t := mk {
  date : string;
  score : Z;
  level : Level;
  answers : gmap Z Z;     (* question id -> answer value *)
  timestamp : Z }.
End StressQuizEntry.

Module JournalEntry.
Record t := mk {
  date : string;
  content : string;
  draft : option bool;
  lastModified : Z;
  createdAt : Z }.
End JournalEntry.

(* ===================================================================== *)
(** ** The browser: errors, IndexedDB, clock *)
(* ===================================================================== *)

Inductive JSError :=
| Error (message : string)
| TypeError (message : string)
| DOMException (name : string).

(** How a promise settles; also used for a synchronous call that returns
    or throws. *)
Inductive Outcome (A : Type) :=
| Resolved (a : A)
| Rejected (e : JSError).
Arguments Resolved {A} a.
Arguments Rejected {A} e.

#[global] Instance Outcome_ret : MRet Outcome := fun _ a => Resolved a.
#[global] Instance Outcome_bind : MBind Outcome := fun _ _ f m =>
  match m with
  | Resolved a => f a
  | Rejected e => Rejected e
  end.

(** The database ["MindSpaceDB"] as the origin persists it.  Version 0
    is a database that was never created.  An object store that exists
    maps the key (its key path is ['date']) to the stored record. *)
Record IDBDatabase := mkDB {
  version : Z;
  moods : option (gmap string MoodEntry.t);
  stressQuizzes : option (gmap string StressQuizEntry.t);
  journals : option (gmap string JournalEntry.t) }.

(** A named object store of the database holding records of type [V]:
    its name, its key path, and where it lives in [IDBDatabase]. *)
Record ObjectStore (V : Type) := mkStore {
  os_name : string;
  keyPath : V -> string;
  os_get : IDBDatabase -> option (gmap string V);
  os_set : option (gmap string V) -> IDBDatabase -> IDBDatabase }.
Arguments os_name {V} _.
Arguments keyPath {V} _ _.
Arguments os_get {V} _ _.
Arguments os_set {V} _ _ _.

Definition DB_NAME : string := "MindSpaceDB".
Definition DB_VERSION : Z := 2.

Definition MOODS_STORE : ObjectStore MoodEntry.t :=
  {| os_name := "moods"; keyPath := MoodEntry.date;
     os_get := moods;
     os_set := fun s d => mkDB (version d) s (stressQuizzes d) (journals d) |}.

Definition STRESS_QUIZ_STORE : ObjectStore StressQuizEntry.t :=
  {| os_name := "stressQuizzes"; keyPath := StressQuizEntry.date;
     os_get := stressQuizzes;
     os_set := fun s d => mkDB (version d) (moods d) s (journals d) |}.

Definition JOURNAL_STORE : ObjectStore JournalEntry.t :=
  {| os_name := "journals"; keyPath := JournalEntry.date;
     os_get := journals;
     os_set := fun s d => mkDB (version d) (moods d) (stressQuizzes d) s |}.

Definition set_version (v : Z) (d : IDBDatabase) : IDBDatabase :=
  mkDB v (moods d) (stressQuizzes d) (journals d).

(** The state an asynchronous function runs in. *)
Record World := mkWorld {
  window_indexedDB : bool;            (* is [window.indexedDB] there *)
  disk : IDBDatabase;                 (* the persisted database *)
  db : bool;                          (* module variable [db] is a connection (not null) *)
  initPromise : option (Outcome unit);(* module variable [initPromise], settled *)
  faults : list (option string);      (* fate of the coming backend requests:
                                         [Some name] fails with that DOMException *)
  now : Z;                            (* the last clock reading *)
  clock : list Z;                     (* the coming clock readings *)
  tz : Z }.                           (* zone offset east of UTC, ms *)

Definition set_disk (d : IDBDatabase) (w : World) : World :=
  mkWorld (window_indexedDB w) d (db w) (initPromise w) (faults w) (now w) (clock w) (tz w).
Definition set_db (b : bool) (w : World) : World :=
  mkWorld (window_indexedDB w) (disk w) b (initPromise w) (faults w) (now w) (clock w) (tz w).
Definition set_initPromise (p : option (Outcome unit)) (w : World) : World :=
  mkWorld (window_indexedDB w) (disk w) (db w) p (faults w) (now w) (clock w) (tz w).
Definition set_faults (f : list (option string)) (w : World) : World :=
  mkWorld (window_indexedDB w) (disk w) (db w) (initPromise w) f (now w) (clock w) (tz w).
Definition set_time (t : Z) (c : list Z) (w : World) : World :=
  mkWorld (window_indexedDB w) (disk w) (db w) (initPromise w) (faults w) t c (tz w).

(** An [async] function, or a function returning a [Promise]. *)
Definition Async (A : Type) : Type := World -> Outcome A * World.

#[global] Instance Async_ret : MRet Async := fun _ a w => (Resolved a, w).
#[global] Instance Async_bind : MBind Async := fun _ _ f m w =>
  match m w with
  | (Resolved a, w') => f a w'
  | (Rejected e, w') => (Rejected e, w')
  end.

(** [try { body } catch (error) { handler }] *)
Definition try_catch {A} (body : Async A) (handler : JSError -> Async A) : Async A :=
  fun w =>
    match body w with
    | (Resolved a, w') => (Resolved a, w')
    | (Rejected e, w') => handler e w'
    end.

(** [Date.now()], and the time value of [new Date()]. *)
Definition Date_now : Async Z := fun w =>
  match clock w with
  | [] => (Resolved (now w), w)
  | t :: c => (Resolved t, set_time t c w)
  end.

Definition timezone : Async Z := fun w => (Resolved (tz w), w).

(** The backend decides whether the next request succeeds. *)
Definition next_fault (w : World) : option string * World :=
  match faults w with
  | [] => (None, w)
  | f :: fs => (f, set_faults fs w)
  end.

(** [database.objectStoreNames.contains(S)] *)
Definition contains {V} (S : ObjectStore V) (database : IDBDatabase) : bool :=
  bool_decide (is_Some (os_get S database)).

(** [database.createObjectStore(S, { keyPath: 'date' })]: throws a
    ConstraintError when the store exists. *)
Definition createObjectStore {V} (S : ObjectStore V) (database : IDBDatabase)
  : Outcome IDBDatabase :=
  if contains S database then Rejected (DOMException "ConstraintError")
  else Resolved (os_set S (Some ∅) database).

(** [indexedDB.open(name, v)] with its [onupgradeneeded] handler, up to
    the [onsuccess] or [onerror] event.  A handler that throws aborts the
    upgrade transaction: nothing of it is persisted. *)
Definition indexedDB_open (v : Z)
    (onupgradeneeded : Z -> IDBDatabase -> Outcome IDBDatabase) : Async unit :=
  fun w =>
    let (fault, w1) := next_fault w in
    match fault with
    | Some name => (Rejected (DOMException name), w1)
    | None =>
        let d := disk w1 in
        if v <? version d then (Rejected (DOMException "VersionError"), w1)
        else if version d <? v then
          match onupgradeneeded (version d) d with
          | Resolved d' => (Resolved (), set_disk (set_version v d') w1)
          | Rejected _ => (Rejected (DOMException "AbortError"), w1)
          end
        else (Resolved (), w1)
    end.

(** One request in a transaction over the single store [S], made through
    the connection [db]: [db!.transaction([S], mode).objectStore(S)],
    the request [f], and the promise settled by its [onsuccess] or
    [onerror] handler ([reject(request.error)]). *)
Definition request {V A} (S : ObjectStore V)
    (f : gmap string V -> A * gmap string V) : Async A :=
  fun w =>
    if negb (db w) then
      (Rejected (TypeError "Cannot read properties of null (reading 'transaction')"), w)
    else
      match os_get S (disk w) with
      | None => (Rejected (DOMException "NotFoundError"), w)
      | Some store =>
          let (fault, w1) := next_fault w in
          match fault with
          | Some name => (Rejected (DOMException name), w1)
          | None =>
              let (a, store') := f store in
              (Resolved a, set_disk (os_set S (Some store') (disk w1)) w1)
          end
      end.

(** The requests of an object store.  [getAll] lists the records in
    ascending key order. *)
Definition store_get {V} (key : string) (store : gmap string V) : option V * gmap string V :=
  (store !! key, store).
Definition store_getAll {V} (store : gmap string V) : list V * gmap string V :=
  ((JS.sort (fun a b => String.compare a.1 b.1) (map_to_list store)).*2, store).
Definition store_put {V} (S : ObjectStore V) (value : V) (store : gmap string V)
  : unit * gmap string V :=
  ((), <[keyPath S value := value]> store).
Definition store_delete {V} (key : string) (store : gmap string V) : unit * gmap string V :=
  ((), delete key store).
Definition store_clear {V} (store : gmap string V) : unit * gmap string V :=
  ((), ∅).

(* ===================================================================== *)
(** ** [src/utils/storage.ts] *)
(* ===================================================================== *)

(** The [onupgradeneeded] handler of [initIndexedDB];
    [oldVersion] is [event.oldVersion || 0]. *)
Definition onupgradeneeded (oldVersion : Z) (database : IDBDatabase)
  : Outcome IDBDatabase :=
  (* Create moods object store if it doesn't exist *)
  database ←
    (if negb (contains MOODS_STORE database)
     then createObjectStore MOODS_STORE database
     else mret database);
  (* Create stress quizzes object store (version 2+) *)
  database ←
    (if (oldVersion <? 2) && negb (contains STRESS_QUIZ_STORE database)
     then createObjectStore STRESS_QUIZ_STORE database
     else mret database);
  (* Create journals object store (version 2+) *)
  if (oldVersion <? 2) && negb (contains JOURNAL_STORE database)
  then createObjectStore JOURNAL_STORE database
  else mret database.

Definition initIndexedDB : Async unit := fun w =>
  match initPromise w with
  | Some p => (p, w)            (* initialization already started *)
  | None =>
      let (p, w') :=
        if negb (window_indexedDB w) then
          (Rejected (Error "IndexedDB is not supported in this browser"), w)
        else
          match indexedDB_open DB_VERSION onupgradeneeded w with
          | (Resolved _, w1) => (Resolved (), set_db true w1)   (* onsuccess *)
          | (Rejected e, w1) => (Rejected e, w1)                (* onerror *)
          end in
      (p, set_initPromise (Some p) w')
  end.

(** [if (!db) await initIndexedDB()] *)
Definition ensure_db : Async unit := fun w =>
  if db w then (Resolved (), w) else initIndexedDB w.

Module WeekData.
Record t := mk { date : string; mood : option string }.
End WeekData.

(** [s || null] for a string [s]: the empty string is falsy. *)
Definition or_null (s : string) : option string :=
  if String.eqb s "" then None else Some s.

Module storage.

Definition getAllMoods : Async (list MoodEntry.t) :=
  ensure_db;; request MOODS_STORE store_getAll.

Definition getMoodByDate (date : string) : Async (option MoodEntry.t) :=
  ensure_db;; request MOODS_STORE (store_get date).

Definition saveMood (entry : MoodEntry.t) : Async unit :=
  ensure_db;; request MOODS_STORE (store_put MOODS_STORE entry).

(** The [for] loop of [getStreak], from index [i] on. *)
Fixpoint streak_loop (tz today i : Z) (sorted : list MoodEntry.t) (streak : Z) : Z :=
  match sorted with
  | [] => streak
  | entry :: rest =>
      match JS.Date_parse (MoodEntry.date entry) with
      | None => streak                       (* NaN === i is false *)
      | Some t =>
          let entryDate := JS.setHours0 tz t in
          let daysDiff := (today - entryDate) / JS.msPerDay in
          if daysDiff =? i then streak_loop tz today (i + 1) rest (streak + 1)
          else streak                        (* streak broken *)
      end
  end.

Definition getStreak : Async Z :=
  moods ← getAllMoods;
  if bool_decide (length moods = 0%nat) then mret 0
  else
    let sorted :=
      JS.sort (fun a b => JS.localeCompare (MoodEntry.date b) (MoodEntry.date a)) moods in
    today ← Date_now;
    tz ← timezone;
    let today := JS.setHours0 tz today in
    mret (streak_loop tz today 0 sorted 0).

(** The [for (let i = 6; i >= 0; i--)] loop of [getWeeklyData]:
    [weekly_loop today n weekData] runs the iterations [i = n-1 .. 0]. *)
Fixpoint weekly_loop (today : Z) (n : nat) (weekData : list WeekData.t)
  : Async (list WeekData.t) :=
  match n with
  | O => mret weekData
  | S i =>
      let date := JS.setDate_minus today (Z.of_nat i) in
      let dateStr := JS.toISOString_date date in
      entry ← getMoodByDate dateStr;
      weekly_loop today i
        (weekData ++ [WeekData.mk dateStr (e ← entry; or_null (MoodEntry.mood e))])
  end.

Definition getWeeklyData : Async (list WeekData.t) :=
  today ← Date_now;
  weekly_loop today 7 [].

Definition deleteMood (date : string) : Async unit :=
  ensure_db;; request MOODS_STORE (store_delete date).

Definition clearAll : Async unit :=
  ensure_db;; request MOODS_STORE store_clear.

End storage.

Module stressQuizStorage.

Definition saveQuizResult (entry : StressQuizEntry.t) : Async unit :=
  ensure_db;; request STRESS_QUIZ_STORE (store_put STRESS_QUIZ_STORE entry).

Definition getQuizByDate (date : string) : Async (option StressQuizEntry.t) :=
  ensure_db;; request STRESS_QUIZ_STORE (store_get date).

Definition getAllQuizzes : Async (list StressQuizEntry.t) :=
  ensure_db;; request STRESS_QUIZ_STORE store_getAll.

End stressQuizStorage.

Module journalStorage.

Definition saveJournal (entry : JournalEntry.t) : Async unit :=
  ensure_db;; request JOURNAL_STORE (store_put JOURNAL_STORE entry).

Definition getJournalByDate (date : string) : Async (option JournalEntry.t) :=
  ensure_db;; request JOURNAL_STORE (store_get date).

Definition getAllJournals : Async (list JournalEntry.t) :=
  ensure_db;; request JOURNAL_STORE store_getAll.

Definition deleteJournal (date : string) : Async unit :=
  ensure_db;; request JOURNAL_STORE (store_delete date).

End journalStorage.

(* ===================================================================== *)
(** ** [src/components/StressQuiz.tsx] *)
(* ===================================================================== *)

Module StressQuiz.

Record StressLevel := mkLevel {
  min : Z; max : Z; label : Level; color : string }.

Definition STRESS_LEVELS_LOW : StressLevel := mkLevel 10 25 Low "green".
Definition STRESS_LEVELS_MODERATE : StressLevel := mkLevel 26 40 Moderate "yellow".
Definition STRESS_LEVELS_HIGH : StressLevel := mkLevel 41 50 High "red".

(** The component's [useState] cells. *)
Record State := mkState {
  answers : gmap Z Z;
  showResults : bool;
  score : Z }.

Definition handleAnswer (questionId value : Z) (st : State) : State :=
  mkState (<[questionId := value]> (answers st)) (showResults st) (score st).

(** [Object.values(o)] of an object with integer keys: values by
    ascending key. *)
Definition Object_values (o : gmap Z Z) : list Z :=
  (JS.sort (fun a b => Z.compare a.1 b.1) (map_to_list o)).*2.

Definition calculateScore (st : State) : Z :=
  fold_left (fun sum value => sum + value) (Object_values (answers st)) 0.

Definition getStressLevel (totalScore : Z) : StressLevel :=
  if totalScore <=? max STRESS_LEVELS_LOW then STRESS_LEVELS_LOW
  else if totalScore <=? max STRESS_LEVELS_MODERATE then STRESS_LEVELS_MODERATE
  else STRESS_LEVELS_HIGH.

Definition handleSubmit (st : State) : Async State :=
  let totalScore := calculateScore st in
  let stressLevel := getStressLevel totalScore in
  let st := mkState (answers st) true totalScore in
  (* Save quiz result to IndexedDB *)
  try_catch
    (today ← Date_now;
     tz ← timezone;
     timestamp ← Date_now;
     let entry := StressQuizEntry.mk (JS.format_yyyy_MM_dd tz today)
                    totalScore (label stressLevel) (answers st) timestamp in
     stressQuizStorage.saveQuizResult entry;;
     mret st)
    (fun error => mret st).

Definition handleReset (st : State) : State := mkState ∅ false 0.

Module Question.
Record t := mk { id : Z; text : string }.
End Question.

Definition QUESTIONS : list Question.t :=
  [ Question.mk 1 "I feel overwhelmed by my responsibilities";
    Question.mk 2 "I have trouble falling or staying asleep";
    Question.mk 3 "I feel irritable or easily frustrated";
    Question.mk 4 "I have difficulty concentrating on tasks";
    Question.mk 5 "I experience physical symptoms like headaches or muscle tension";
    Question.mk 6 "I feel anxious or worried about the future";
    Question.mk 7 "I have trouble making decisions";
    Question.mk 8 "I feel like I have too much to do and not enough time";
    Question.mk 9 "I avoid social situations or activities I used to enjoy";
    Question.mk 10 "I feel exhausted even after getting enough sleep" ].

Module ScaleOption.
Record t := mk { value : Z; label : string }.
End ScaleOption.

Definition SCALE_OPTIONS : list ScaleOption.t :=
  [ ScaleOption.mk 1 "Never"; ScaleOption.mk 2 "Rarely"; ScaleOption.mk 3 "Sometimes";
    ScaleOption.mk 4 "Often"; ScaleOption.mk 5 "Always" ].

(** [QUESTIONS.every((q) => answers[q.id] !== undefined)] *)
Definition allAnswered (st : State) : bool :=
  forallb (fun q => bool_decide (is_Some (answers st !! Question.id q))) QUESTIONS.

End StressQuiz.

(* ===================================================================== *)
(** ** [src/components/Journal.tsx] *)
(* ===================================================================== *)

Module Journal.

Record State := mkState {
  content : string;
  isSaving : bool;
  lastSaved : option Z;        (* a [Date], by its time value, or null *)
  isDraft : bool;
  showDeleteConfirm : bool }.

Definition setIsSaving (b : bool) (st : State) : State :=
  mkState (content st) b (lastSaved st) (isDraft st) (showDeleteConfirm st).

(** [todayStr = format(today, 'yyyy-MM-dd')], with [today = new Date()]
    taken when the component rendered: the last clock reading. *)
Definition todayStr : Async string := fun w =>
  (Resolved (JS.format_yyyy_MM_dd (tz w) (now w)), w).

Definition loadJournal (st : State) : Async State :=
  try_catch
    (todayStr ← todayStr;
     entry ← journalStorage.getJournalByDate todayStr;
     match entry with
     | Some entry =>
         mret (mkState (JournalEntry.content entry) (isSaving st)
                 (Some (JournalEntry.lastModified entry))
                 (default false (JournalEntry.draft entry))
                 (showDeleteConfirm st))
     | None => mret st
     end)
    (fun error => mret st).

(** The body shared by [autoSaveDraft] ([draft = true]) and [handleSave]
    ([draft = false]), which differ in that flag only. *)
Definition save (draft : bool) (st : State) : Async State :=
  if String.eqb (JS.trim (content st)) "" then mret st
  else
    try_catch
      (todayStr ← todayStr;
       lastModified ← Date_now;
       createdAt ← match lastSaved st with
                   | Some t => mret t          (* new Date(lastSaved).getTime() *)
                   | None => Date_now
                   end;
       let entry := JournalEntry.mk todayStr (JS.trim (content st)) (Some draft)
                      lastModified createdAt in
       journalStorage.saveJournal entry;;
       saved ← Date_now;                       (* setLastSaved(new Date()) *)
       mret (mkState (content st) false (Some saved) draft (showDeleteConfirm st)))
      (fun error => mret (setIsSaving false st)).

Definition autoSaveDraft : State -> Async State := save true.

Definition handleSave : State -> Async State := save false.

Definition handleDelete (st : State) : Async State :=
  try_catch
    (todayStr ← todayStr;
     journalStorage.deleteJournal todayStr;;
     mret (mkState "" (isSaving st) None false false))
    (fun error => mret st).

Definition handleContentChange (value : string) (st : State) : State :=
  mkState value (isSaving st) (lastSaved st) (isDraft st) (showDeleteConfirm st).

End Journal.

(* ===================================================================== *)
(** ** [src/components/MoodTracker.tsx]: the save path *)
(* ===================================================================== *)

Module MoodTracker.

Record State := mkState {
  selectedMood : string;
  note : string;
  todayEntry : option MoodEntry.t;
  streak : Z;
  weeklyData : list WeekData.t;
  allMoods : list MoodEntry.t }.

Definition todayStr : Async string := fun w =>
  (Resolved (JS.format_yyyy_MM_dd (tz w) (now w)), w).

(** [loadMoods]: every [set...] that ran before a failure stays applied,
    so each step has the state reached so far as its fallback. *)
Definition loadMoods (st : State) : Async State :=
  todayStr ← todayStr;
  try_catch
    (entry ← storage.getMoodByDate todayStr;
     let st := mkState (from_option MoodEntry.mood (selectedMood st) entry)
                 (from_option (fun e => default "" (MoodEntry.note e)) (note st) entry)
                 entry (streak st) (weeklyData st) (allMoods st) in
     try_catch
       (moods ← storage.getAllMoods;
        let st := mkState (selectedMood st) (note st) (todayEntry st)
                    (streak st) (weeklyData st) moods in
        try_catch
          (streak' ← storage.getStreak;
           let st := mkState (selectedMood st) (note st) (todayEntry st)
                       streak' (weeklyData st) (allMoods st) in
           try_catch
             (weekly ← storage.getWeeklyData;
              mret (mkState (selectedMood st) (note st) (todayEntry st)
                      (streak st) weekly (allMoods st)))
             (fun error => mret st))
          (fun error => mret st))
       (fun error => mret st))
    (fun error => mret st).

Definition handleSaveMood (st : State) : Async State :=
  if String.eqb (selectedMood st) "" then mret st
  else
    todayStr ← todayStr;
    let entry := MoodEntry.mk todayStr (selectedMood st) (or_null (JS.trim (note st))) in
    try_catch
      (storage.saveMood entry;;
       loadMoods st)
      (fun error => mret st).

(** [handleUpdateMood]: the same body as [handleSaveMood]. *)
Definition handleUpdateMood (st : State) : Async State :=
  if String.eqb (selectedMood st) "" then mret st
  else
    todayStr ← todayStr;
    let entry := MoodEntry.mk todayStr (selectedMood st) (or_null (JS.trim (note st))) in
    try_catch
      (storage.saveMood entry;;
       loadMoods st)
      (fun error => mret st).

(** [getMoodForDate(date)], for a calendar cell at instant [date] in
    zone [tz]: [allMoods.find((m) => m.date === dateStr) || null]. *)
Definition getMoodForDate (tz date : Z) (st : State) : option MoodEntry.t :=
  let dateStr := JS.format_yyyy_MM_dd tz date in
  List.find (fun m => String.eqb (MoodEntry.date m) dateStr) (allMoods st).

End MoodTracker.

(* ===================================================================== *)
(** ** [src/components/BreathingExercise.tsx]: the phase timer *)
(* ===================================================================== *)

Module BreathingExercise.

Inductive Phase := inhale | hold | exhale | rest.

Definition PHASE_DURATIONS (p : Phase) : Z :=
  match p with
  | inhale => 4000
  | hold => 4000
  | exhale => 4000
  | rest => 1000
  end.

Definition PHASE_LABELS (p : Phase) : string :=
  match p with
  | inhale => "Breathe In"
  | hold => "Hold"
  | exhale => "Breathe Out"
  | rest => "Rest"
  end.

(** What the component asks of the timer and speech APIs. *)
Inductive Call :=
| cancel                                  (* synthRef.current.cancel() *)
| speak_after (delay : Z) (text : string) (* setTimeout(() => speak(text), delay) *)
| setInterval (delay : Z)                 (* window.setInterval(updatePhase, delay) *)
| clearInterval.

(** The [useState] cells [phase], [isRunning], [cycleCount], the refs
    [isRunningRef] and [intervalRef], the variables [currentPhase] and
    [phaseStartTime] captured by [updatePhase], whether [synthRef] holds
    the speech synthesizer, and the calls made so far, oldest first. *)
Record State := mkState {
  phase : Phase;
  isRunning : bool;
  cycleCount : Z;
  isRunningRef : bool;
  intervalRef : bool;
  currentPhase : Phase;
  phaseStartTime : Z;
  synthRef : bool;
  calls : list Call }.

(** [startBreathing], [t] being the reading of its [Date.now()]. *)
Definition startBreathing (t : Z) (st : State) : State :=
  mkState inhale true 0 true true inhale t (synthRef st)
    (calls st ++ (if synthRef st then [cancel] else [])
       ++ [speak_after 100 "Begin breathing exercise. Breathe in."; setInterval 100]).

(** One run of [updatePhase]; [t1] is the reading of [Date.now()] that
    gives [elapsed], [t2] the reading stored as the new
    [phaseStartTime] when the phase changes. *)
Definition updatePhase (t1 t2 : Z) (st : State) : State :=
  if negb (isRunningRef st) then st
  else
    let elapsed := t1 - phaseStartTime st in
    let duration := PHASE_DURATIONS (currentPhase st) in
    if duration <=? elapsed then
      match currentPhase st with
      | inhale =>
          mkState hold (isRunning st) (cycleCount st) (isRunningRef st) (intervalRef st)
            hold t2 (synthRef st) (calls st ++ [speak_after 50 "Hold"])
      | hold =>
          mkState exhale (isRunning st) (cycleCount st) (isRunningRef st) (intervalRef st)
            exhale t2 (synthRef st) (calls st ++ [speak_after 50 "Breathe out"])
      | exhale =>
          mkState rest (isRunning st) (cycleCount st + 1) (isRunningRef st) (intervalRef st)
            rest t2 (synthRef st) (calls st)
      | rest =>
          mkState inhale (isRunning st) (cycleCount st) (isRunningRef st) (intervalRef st)
            inhale t2 (synthRef st) (calls st ++ [speak_after 50 "Breathe in"])
      end
    else st.

Definition stopBreathing (st : State) : State :=
  mkState inhale false (cycleCount st) false false (currentPhase st) (phaseStartTime st)
    (synthRef st)
    (calls st ++ (if intervalRef st then [clearInterval] else [])
       ++ (if synthRef st then [cancel] else [])).

Definition getCircleSize (st : State) : string :=
  match phase st with
  | inhale => "scale(1.5)"
  | hold => "scale(1.5)"
  | exhale => "scale(1)"
  | rest => "scale(1)"
  end.

Definition getAnimationClass (st : State) : string :=
  match phase st with
  | inhale => "animate-breathe-in"
  | hold => "animate-breathe-hold"
  | exhale => "animate-breathe-out"
  | rest => ""
  end.

End BreathingExercise.

(* ===================================================================== *)
(** ** Onboarding: [Intro.tsx] and the guard of [App.tsx] *)
(* ===================================================================== *)

(** [localStorage]: a map from keys to strings. *)
Module Intro.


End Intro.

Module App.



End App.

(* ===================================================================== *)
(** ** Vocabulary of the statements *)
(* ===================================================================== *)

(** The world an asynchronous call leaves, and the value it resolved
    with. *)
Definition after {A} (m : Async A) (w : World) : World := (m w).2.

Definition resolved {A} (r : Outcome A * World) : option A :=
  match r.1 with
  | Resolved a => Some a
  | Rejected _ => None
  end.

(** What the clock is going to read next. *)
Definition next_reading (w : World) : Z := hd (now w) (clock w).

(** The connection is open and the three stores exist: the state a
    successful [initIndexedDB] leaves. *)
Definition connected (w : World) : Prop :=
  db w = true /\
  is_Some (moods (disk w)) /\ is_Some (stressQuizzes (disk w)) /\
  is_Some (journals (disk w)).

(** Connected, and no backend request is going to fail. *)
Definition ready (w : World) : Prop := connected w /\ faults w = [].

(** A browser in which [initIndexedDB] has not run yet: no connection,
    and a database that is absent (version 0, no store), at version 1
    (the [moods] store only) or at version 2 (all three). *)
Definition fresh (w : World) : Prop :=
  db w = false /\ initPromise w = None /\ window_indexedDB w = true /\
  faults w = [] /\
  ((version (disk w) = 0 /\ moods (disk w) = None /\
    stressQuizzes (disk w) = None /\ journals (disk w) = None) \/
   (version (disk w) = 1 /\ is_Some (moods (disk w)) /\
    stressQuizzes (disk w) = None /\ journals (disk w) = None) \/
   (version (disk w) = 2 /\ is_Some (moods (disk w)) /\
    is_Some (stressQuizzes (disk w)) /\ is_Some (journals (disk w)))).

(** The records of a store, none when the store does not exist. *)
Definition records {V} (S : ObjectStore V) (d : IDBDatabase) : gmap string V :=
  default ∅ (os_get S d).

(** In an object store with key path ['date'] every record sits under
    its own date. *)
Definition inline_keys {V} (S : ObjectStore V) (store : gmap string V) : Prop :=
  map_Forall (fun k v => keyPath S v = k) store.

Definition keyed (d : IDBDatabase) : Prop :=
  inline_keys MOODS_STORE (records MOODS_STORE d) /\
  inline_keys STRESS_QUIZ_STORE (records STRESS_QUIZ_STORE d) /\
  inline_keys JOURNAL_STORE (records JOURNAL_STORE d).

(** The getter and setter of a store behave as a lens on the database. *)
Record lawful {V} (S : ObjectStore V) : Prop := {
  get_set : forall s d, os_get S (os_set S s d) = s;
  set_get : forall d, os_set S (os_get S d) d = d;
  set_set : forall s s' d, os_set S s (os_set S s' d) = os_set S s d;
  set_version_same : forall s d, version (os_set S s d) = version d }.

(** The world after a request left [store'] in the store [S]. *)
Definition commit {V} (S : ObjectStore V) (store' : gmap string V) (w : World) : World :=
  set_disk (os_set S (Some store') (disk w)) w.

(** The shape the accessors of the three stores share: make sure the
    connection is there, then one request on the store [S]. *)
Definition put_in {V} (S : ObjectStore V) (v : V) : Async unit :=
  ensure_db;; request S (store_put S v).
Definition get_from {V} (S : ObjectStore V) (d : string) : Async (option V) :=
  ensure_db;; request S (store_get d).
Definition getAll_from {V} (S : ObjectStore V) : Async (list V) :=
  ensure_db;; request S store_getAll.
Definition delete_from {V} (S : ObjectStore V) (d : string) : Async unit :=
  ensure_db;; request S (store_delete d).

(** The records of a [getAll] result that carry the date [d]. *)
Definition dated {V} (S : ObjectStore V) (d : string) (l : list V) : list V :=
  filter (fun v => keyPath S v = d) l.


(** The sum of the answer values of a quiz. *)
Definition sum_values (answers : gmap Z Z) : Z :=
  map_fold (fun _ value sum => value + sum) 0 answers.

(** The banding of a score the quiz record promises. *)
Definition banded (score : Z) (level : Level) : Prop :=
  (score <= 25 /\ level = Low) \/
  (26 <= score <= 40 /\ level = Moderate) \/
  (41 <= score /\ level = High).


(* ===================================================================== *)
(** ** Scenarios *)
(* ===================================================================== *)

Definition happy : string := "😊".
Definition sad : string := "😢".

(** America/Bogota, UTC-05:00 all year. *)
Definition bogota : Z := -5 * 3600000.
(** Asia/Kolkata, UTC+05:30 all year. *)
Definition kolkata : Z := 330 * 60000.

(** 2024-01-15T00:00:00Z *)
Definition jan15 : Z := 1705276800000.

(** A browser that never ran the app, in zone [tz] at instant [t]. *)
Definition browser (tz t : Z) : World :=
  mkWorld true (mkDB 0 None None None) false None [] t [] tz.

(** The page is opened again at instant [t]. *)
Definition reopened (t : Z) (w : World) : World := set_time t [] w.

(** *** A browser with one record in each store

    The app was first used at 2024-01-14T12:00:00Z in Kolkata: a mood, a
    quiz result and a journal entry dated 2024-01-14 were stored. *)
Definition used_browser : World :=
  after (storage.saveMood (MoodEntry.mk "2024-01-14" happy (Some "ok"));;
         stressQuizStorage.saveQuizResult
           (StressQuizEntry.mk "2024-01-14" 30 Moderate {[ 1 := 3 ]} (jan15 - 1000));;
         journalStorage.saveJournal
           (JournalEntry.mk "2024-01-14" "dear diary" (Some false)
              (jan15 - 500) (jan15 - 900)))
    (browser kolkata (jan15 - 43200000)).

Definition mood_a : MoodEntry.t := MoodEntry.mk "2024-01-15" happy None.
Definition mood_b : MoodEntry.t := MoodEntry.mk "2024-01-15" sad (Some "rain").
Definition quiz_a : StressQuizEntry.t :=
  StressQuizEntry.mk "2024-01-15" 3 Low {[ 1 := 1; 2 := 2 ]} (jan15 + 1000).
Definition quiz_b : StressQuizEntry.t :=
  StressQuizEntry.mk "2024-01-15" 9 Low {[ 1 := 4; 2 := 5 ]} (jan15 + 2000).
Definition journal_a : JournalEntry.t :=
  JournalEntry.mk "2024-01-15" "first" (Some true) (jan15 + 1000) (jan15 + 1000).
Definition journal_b : JournalEntry.t :=
  JournalEntry.mk "2024-01-15" "second" (Some false) (jan15 + 2000) (jan15 + 1000).

(** A quiz filled in with ten answers. *)
Definition quiz_filled : StressQuiz.State :=
  StressQuiz.mkState
    (list_to_map [(1, 3); (2, 4); (3, 2); (4, 5); (5, 1);
                  (6, 3); (7, 3); (8, 2); (9, 1); (10, 2)])
    false 0.

(** *** Three days of mood logging

    The user picks a mood and saves it at local noon on 2024-01-13, on
    2024-01-14 and on 2024-01-15, in a browser that never ran the app.
    [noon tz] is local noon of 2024-01-15 in zone [tz]. *)

Definition noon (tz : Z) : Z := jan15 + 43200000 - tz.

Definition picked : MoodTracker.State := MoodTracker.mkState happy "" None 0 [] [].

Definition logged_13 (tz : Z) : World :=
  after (MoodTracker.handleSaveMood picked) (browser tz (noon tz - 2 * JS.msPerDay)).
Definition logged_13_14 (tz : Z) : World :=
  after (MoodTracker.handleSaveMood picked) (reopened (noon tz - JS.msPerDay) (logged_13 tz)).
Definition logged_13_14_15 (tz : Z) : Outcome MoodTracker.State * World :=
  MoodTracker.handleSaveMood picked (reopened (noon tz) (logged_13_14 tz)).
Definition logged_13_15 (tz : Z) : Outcome MoodTracker.State * World :=
  MoodTracker.handleSaveMood picked (reopened (noon tz) (logged_13 tz)).

(** *** A mood saved in Kolkata at 02:00 local time on 2024-01-15
    (2024-01-14T20:30:00Z), in a browser that never ran the app. *)
Definition saved_at_night : Outcome MoodTracker.State * World :=
  MoodTracker.handleSaveMood picked (browser kolkata (jan15 - 12600000)).

(** *** A journal entry auto-saved, then saved, then deleted and rewritten

    The journal page is opened at 2024-01-15T10:00:00Z.  The clock then
    reads: 10:00:02.000 for both [Date.now()] of the draft, 10:00:02.004
    once its put has completed, 10:01:00.000 for the explicit save and
    10:01:00.003 once that put has completed.  The entry is deleted at
    10:02:00 and a new draft is auto-saved at 10:02:05.000, its put
    completing at 10:02:05.002. *)
Definition morning : Z := jan15 + 36000000.

Definition journal_opened : World :=
  mkWorld true (mkDB 0 None None None) false None [] morning
    [morning + 2000; morning + 2000; morning + 2004; morning + 60000; morning + 60003]
    kolkata.

Definition journal_blank : Journal.State := Journal.mkState "" false None false false.

Definition journal_loaded : Outcome Journal.State * World :=
  Journal.loadJournal journal_blank journal_opened.

Definition journal_drafted : Outcome Journal.State * World :=
  Journal.autoSaveDraft
    (Journal.handleContentChange "Dear diary " (default journal_blank (resolved journal_loaded)))
    journal_loaded.2.

Definition journal_saved : Outcome Journal.State * World :=
  Journal.handleSave (default journal_blank (resolved journal_drafted)) journal_drafted.2.

Definition journal_deleted : Outcome Journal.State * World :=
  Journal.handleDelete (default journal_blank (resolved journal_saved))
    (set_time (morning + 120000)
       [morning + 125000; morning + 125000; morning + 125002] journal_saved.2).

Definition journal_rewritten : Outcome Journal.State * World :=
  Journal.autoSaveDraft
    (Journal.handleContentChange "Again" (default journal_blank (resolved journal_deleted)))
    journal_deleted.2.

(* ===================================================================== *)
(** ** More vocabulary and scenarios *)
(* ===================================================================== *)

(** A browser without IndexedDB in which the module was just loaded. *)
Definition unsupported (w : World) : Prop :=
  window_indexedDB w = false /\ db w = false /\ initPromise w = None.

(** A browser whose database was written by a later version of the app,
    before the first call of [initIndexedDB]. *)
Definition newer_schema (w : World) : Prop :=
  window_indexedDB w = true /\ db w = false /\ initPromise w = None /\
  hd None (faults w) = None /\ DB_VERSION < version (disk w).

Definition NOT_SUPPORTED : JSError :=
  Error "IndexedDB is not supported in this browser".

(** A database left by version 1 of the app: the [moods] store alone,
    holding one record. *)
Definition v1_browser : World :=
  mkWorld true
    (mkDB 1 (Some {[ "2023-12-31" := MoodEntry.mk "2023-12-31" "😊" (Some "new year") ]})
       None None)
    false None [] jan15 [] kolkata.

Definition no_indexedDB_browser : World :=
  mkWorld false (mkDB 0 None None None) false None [] jan15 [] kolkata.

Definition v3_browser : World :=
  mkWorld true (mkDB 3 (Some ∅) (Some ∅) (Some ∅)) false None [] jan15 [] kolkata.

(** [used_browser] with a backend about to fail one request. *)
Definition failing_browser : World := set_faults [Some "QuotaExceededError"] used_browser.



(** [l] lists the records of [store], each once, by ascending date. *)
Definition full_scan_of {V} (S : ObjectStore V) (store : gmap string V) (l : list V) : Prop :=
  (forall r, r ∈ l <-> store !! keyPath S r = Some r) /\
  Sorted (fun a b => String.compare (keyPath S a) (keyPath S b) = Lt) l /\
  length l = size store.

(** The moods [getStreak] walks: the full scan, newest date first. *)
Definition newest_first (store : gmap string MoodEntry.t) : list MoodEntry.t :=
  JS.sort (fun a b => JS.localeCompare (MoodEntry.date b) (MoodEntry.date a))
    (store_getAll store).1.


(** The world after [n] more readings of the clock. *)
Definition after_reads (n : nat) (w : World) : World := Nat.iter n (after Date_now) w.


(** The number of clock readings a journal save makes. *)
Definition journal_reads (st : Journal.State) : nat :=
  match Journal.lastSaved st with Some _ => 2%nat | None => 3%nat end.

(** A journal page on which a draft was already auto-saved. *)
Definition journal_page : Journal.State :=
  Journal.mkState "  Slept well.  " false (Some (jan15 - 600)) true false.

(** Answers as the quiz page can build them: each key is the id of a
    question and each value one of the scale options. *)
Definition answered_from_ui (answers : gmap Z Z) : Prop :=
  map_Forall (fun q v => q ∈ (StressQuiz.Question.id <$> StressQuiz.QUESTIONS) /\
                         v ∈ (StressQuiz.ScaleOption.value <$> StressQuiz.SCALE_OPTIONS))
    answers.

Definition level_rank (l : Level) : Z :=
  match l with Low => 0 | Moderate => 1 | High => 2 end.



(** [n] runs of [updatePhase] by an interval that fires every 100 ms
    after the instant [t], each reading the clock at its nominal time. *)
Fixpoint breathing_ticks (t : Z) (n : nat) (st : BreathingExercise.State)
  : BreathingExercise.State :=
  match n with
  | O => st
  | S n' => breathing_ticks (t + 100) n'
              (BreathingExercise.updatePhase (t + 100) (t + 100) st)
  end.

(** A breathing exercise started at [jan15], on a device with speech. *)
Definition breathing_started : BreathingExercise.State :=
  BreathingExercise.startBreathing jan15
    (BreathingExercise.mkState BreathingExercise.inhale false 7 false false
       BreathingExercise.inhale 0 true []).

(* ===================================================================== *)
(** ** Running asynchronous code *)
(* ===================================================================== *)

Lemma bind_resolved {A B} (m : Async A) (f : A -> Async B) w a w' :
  m w = (Resolved a, w') -> (m ≫= f) w = f a w'.
Proof. intros H. unfold mbind, Async_bind. now rewrite H. Qed.

Lemma bind_rejected {A B} (m : Async A) (f : A -> Async B) w e w' :
  m w = (Rejected e, w') -> (m ≫= f) w = (Rejected e, w').
Proof. intros H. unfold mbind, Async_bind. now rewrite H. Qed.

Lemma ensure_db_connected w : db w = true -> ensure_db w = (Resolved (), w).
Proof. intros H. unfold ensure_db. now rewrite H. Qed.

Lemma MOODS_STORE_lawful : lawful MOODS_STORE.
Proof. split; intros; try reflexivity; now destruct d. Qed.

Lemma STRESS_QUIZ_STORE_lawful : lawful STRESS_QUIZ_STORE.
Proof. split; intros; try reflexivity; now destruct d. Qed.

Lemma JOURNAL_STORE_lawful : lawful JOURNAL_STORE.
Proof. split; intros; try reflexivity; now destruct d. Qed.

Create HintDb stores.

#[global] Hint Resolve MOODS_STORE_lawful STRESS_QUIZ_STORE_lawful
  JOURNAL_STORE_lawful : stores.

Section ObjectStoreFacts.
Context {V : Type} (S : ObjectStore V) (HS : lawful S).

Lemma commit_db store w : db (commit S store w) = db w.
Proof. reflexivity. Qed.

Lemma commit_faults store w : faults (commit S store w) = faults w.
Proof. reflexivity. Qed.

Lemma commit_get store w : os_get S (disk (commit S store w)) = Some store.
Proof. unfold commit. simpl. apply (get_set S HS). Qed.

Lemma commit_same store w : os_get S (disk w) = Some store -> commit S store w = w.
Proof.
  intros H. unfold commit. rewrite <- H, (set_get S HS). now destruct w.
Qed.

Lemma commit_commit s s' w : commit S s (commit S s' w) = commit S s w.
Proof. unfold commit. simpl. now rewrite (set_set S HS). Qed.

(** A request through an open connection, on a store that exists, with
    a backend that does not fail: it resolves with the request's result
    and leaves the request's store behind. *)
Lemma request_ready {A} (f : gmap string V -> A * gmap string V) w store :
  db w = true -> faults w = [] -> os_get S (disk w) = Some store ->
  request S f w = (Resolved (f store).1, commit S (f store).2 w).
Proof.
  intros Hdb Hf Hs. unfold request, next_fault.
  rewrite Hdb, Hs, Hf. simpl. now destruct (f store).
Qed.

Lemma access_ready {A} (f : gmap string V -> A * gmap string V) w store :
  db w = true -> faults w = [] -> os_get S (disk w) = Some store ->
  (ensure_db;; request S f) w = (Resolved (f store).1, commit S (f store).2 w).
Proof.
  intros Hdb Hf Hs.
  rewrite (bind_resolved _ _ w () w) by now apply ensure_db_connected.
  now apply request_ready.
Qed.

(** The backend fails the request: the promise rejects with the
    request's own error, and the store is as it was. *)
Lemma access_fault {A} (f : gmap string V -> A * gmap string V) w store name rest :
  db w = true -> faults w = Some name :: rest -> os_get S (disk w) = Some store ->
  (ensure_db;; request S f) w = (Rejected (DOMException name), set_faults rest w).
Proof.
  intros Hdb Hf Hs.
  rewrite (bind_resolved _ _ w () w) by now apply ensure_db_connected.
  unfold request, next_fault. now rewrite Hdb, Hs, Hf.
Qed.

Lemma inline_keys_insert store v :
  inline_keys S store -> inline_keys S (<[keyPath S v := v]> store).
Proof.
  intros H k v'. rewrite lookup_insert. case_decide; [|apply H].
  intros [= <-]. assumption.
Qed.

Lemma inline_keys_delete store k : inline_keys S store -> inline_keys S (delete k store).
Proof.
  intros H k' v'. rewrite lookup_delete. case_decide; [discriminate|apply H].
Qed.

Lemma inline_keys_empty : inline_keys S ∅.
Proof. intros k v. now rewrite lookup_empty. Qed.

End ObjectStoreFacts.

(* ===================================================================== *)
(** ** Sorting and full scans *)
(* ===================================================================== *)

Lemma sort_insert_Permutation {A} (cmp : A -> A -> comparison) x l :
  JS.sort_insert cmp x l ≡ₚ x :: l.
Proof.
  induction l as [|y l IH]; simpl; [reflexivity|].
  destruct (cmp x y); try reflexivity.
  rewrite IH. apply Permutation_swap.
Qed.

Lemma sort_Permutation {A} (cmp : A -> A -> comparison) l : JS.sort cmp l ≡ₚ l.
Proof.
  induction l as [|x l IH]; simpl; [reflexivity|].
  unfold JS.sort in *. simpl. rewrite sort_insert_Permutation. now rewrite IH.
Qed.

Lemma sort_length {A} (cmp : A -> A -> comparison) l :
  length (JS.sort cmp l) = length l.
Proof. apply Permutation_length, sort_Permutation. Qed.

Section FullScan.
Context {V : Type} (S : ObjectStore V).

Lemma store_getAll_Permutation (store : gmap string V) :
  (store_getAll store).1 ≡ₚ (map_to_list store).*2.
Proof. unfold store_getAll. simpl. now rewrite sort_Permutation. Qed.

Lemma store_getAll_empty : (store_getAll (∅ : gmap string V)).1 = [].
Proof. unfold store_getAll. simpl. now rewrite map_to_list_empty. Qed.

Lemma dated_none (store : gmap string V) d :
  inline_keys S store -> store !! d = None ->
  dated S d (map_to_list store).*2 = [].
Proof.
  intros Hk Hd. unfold dated.
  destruct (filter _ _) as [|v l] eqn:E; [reflexivity|exfalso].
  assert (Hv : v ∈ filter (fun v => keyPath S v = d) (map_to_list store).*2)
    by (rewrite E; left).
  apply list_elem_of_filter in Hv as [Heq Hv].
  apply list_elem_of_fmap in Hv as [[k v'] [-> Hin]]. simpl in *.
  apply elem_of_map_to_list in Hin.
  pose proof (Hk _ _ Hin) as Hkv. congruence.
Qed.

(** After a put, a full scan holds exactly one record with that date:
    the one that was put. *)
Lemma getAll_dated_put (store : gmap string V) v :
  inline_keys S store ->
  dated S (keyPath S v) (store_getAll (<[keyPath S v := v]> store)).1 = [v].
Proof.
  intros Hk. set (k := keyPath S v).
  apply Permutation_singleton_r.
  unfold dated. rewrite store_getAll_Permutation.
  rewrite <- (insert_delete_eq store).
  rewrite map_to_list_insert by apply lookup_delete_eq.
  rewrite fmap_cons. simpl. rewrite filter_cons_True by reflexivity.
  fold (dated S k (map_to_list (delete k store)).*2).
  rewrite dated_none; [reflexivity| |apply lookup_delete_eq].
  intros k' v'. rewrite lookup_delete. case_decide; [discriminate|apply Hk].
Qed.

End FullScan.

(* ===================================================================== *)
(** ** The accessors of one store *)
(* ===================================================================== *)

Section Accessors.
Context {V : Type} (S : ObjectStore V) (HS : lawful S).

#[local] Abbreviation put := (put_in S).
#[local] Abbreviation get := (get_from S).
#[local] Abbreviation getAll := (getAll_from S).
#[local] Abbreviation del := (delete_from S).

Section Ready.
Context (w : World) (store : gmap string V).
Context (Hdb : db w = true) (Hf : faults w = []) (Hs : os_get S (disk w) = Some store).

Lemma put_ready v : put v w = (Resolved (), commit S (<[keyPath S v := v]> store) w).
Proof. unfold put_in. now rewrite (access_ready S _ w store). Qed.

Lemma get_ready d : get d w = (Resolved (store !! d), w).
Proof.
  unfold get_from. rewrite (access_ready S _ w store) by assumption.
  simpl. now rewrite (commit_same S HS).
Qed.

Lemma getAll_ready : getAll w = (Resolved (store_getAll store).1, w).
Proof.
  unfold getAll_from. rewrite (access_ready S _ w store) by assumption.
  simpl. now rewrite (commit_same S HS).
Qed.

Lemma del_ready d : del d w = (Resolved (), commit S (delete d store) w).
Proof. unfold delete_from. now rewrite (access_ready S _ w store). Qed.

Lemma del_absent d : store !! d = None -> del d w = (Resolved (), w).
Proof.
  intros Hd. rewrite del_ready, delete_id by assumption.
  now rewrite (commit_same S HS).
Qed.

End Ready.

Lemma put_get w store v :
  db w = true -> faults w = [] -> os_get S (disk w) = Some store ->
  (put v;; get (keyPath S v)) w
  = (Resolved (Some v), commit S (<[keyPath S v := v]> store) w).
Proof.
  intros Hdb Hf Hs.
  rewrite (bind_resolved _ _ _ _ _ (put_ready w store Hdb Hf Hs v)).
  rewrite (get_ready _ (<[keyPath S v := v]> store)); try assumption.
  - now rewrite lookup_insert_eq.
  - apply (commit_get S HS).
Qed.

Lemma put_put_get_getAll w store v1 v2 :
  db w = true -> faults w = [] -> os_get S (disk w) = Some store ->
  inline_keys S store -> keyPath S v1 = keyPath S v2 ->
  exists all,
    (put v1;; put v2;; r ← get (keyPath S v1); all ← getAll; mret (r, all)) w
    = (Resolved (Some v2, all), commit S (<[keyPath S v2 := v2]> store) w)
    /\ dated S (keyPath S v1) all = [v2].
Proof.
  intros Hdb Hf Hs Hk Heq.
  set (s2 := <[keyPath S v2 := v2]> store).
  exists (store_getAll s2).1. split.
  - rewrite (bind_resolved _ _ _ _ _ (put_ready w store Hdb Hf Hs v1)).
    set (w1 := commit S _ w).
    assert (Hs1 : os_get S (disk w1) = Some (<[keyPath S v1 := v1]> store))
      by apply (commit_get S HS).
    rewrite (bind_resolved _ _ _ _ _ (put_ready w1 _ Hdb Hf Hs1 v2)).
    unfold w1. rewrite (commit_commit S HS), Heq, insert_insert_eq.
    fold s2. set (w2 := commit S s2 w).
    assert (Hs2 : os_get S (disk w2) = Some s2) by apply (commit_get S HS).
    rewrite (bind_resolved _ _ _ _ _ (get_ready w2 s2 Hdb Hf Hs2 _)).
    rewrite (bind_resolved _ _ _ _ _ (getAll_ready w2 s2 Hdb Hf Hs2)).
    unfold s2 at 1. now rewrite lookup_insert_eq.
  - rewrite Heq. now apply getAll_dated_put.
Qed.

Lemma del_del w store d :
  db w = true -> faults w = [] -> os_get S (disk w) = Some store ->
  (del d;; del d) w = del d w.
Proof.
  intros Hdb Hf Hs.
  rewrite (bind_resolved _ _ _ _ _ (del_ready w store Hdb Hf Hs d)).
  rewrite (del_ready w store Hdb Hf Hs d).
  rewrite (del_absent (commit S (delete d store) w) (delete d store));
    try assumption; try reflexivity.
  - apply (commit_get S HS).
  - apply lookup_delete_eq.
Qed.


End Accessors.

(* ===================================================================== *)
(** ** Schema upgrade and initialization *)
(* ===================================================================== *)

(** What the upgrade handler leaves, store by store. *)
Lemma onupgradeneeded_result oldVersion database :
  onupgradeneeded oldVersion database
  = Resolved (mkDB (version database)
                (Some (default ∅ (moods database)))
                (if oldVersion <? 2 then Some (default ∅ (stressQuizzes database))
                 else stressQuizzes database)
                (if oldVersion <? 2 then Some (default ∅ (journals database))
                 else journals database)).
Proof.
  destruct database as [v [m|] [q|] [j|]]; destruct (oldVersion <? 2) eqn:E;
    unfold onupgradeneeded; simpl; rewrite ?E; reflexivity.
Qed.

Lemma onupgradeneeded_records oldVersion database database' :
  onupgradeneeded oldVersion database = Resolved database' ->
  records MOODS_STORE database' = records MOODS_STORE database /\
  records STRESS_QUIZ_STORE database' = records STRESS_QUIZ_STORE database /\
  records JOURNAL_STORE database' = records JOURNAL_STORE database.
Proof.
  rewrite onupgradeneeded_result. intros [= <-]. unfold records. simpl.
  destruct database as [v m q j]; simpl.
  destruct (oldVersion <? 2), m, q, j; auto.
Qed.

(** Opening never touches a record: whatever the outcome, each store
    holds afterwards the records it held before. *)
Lemma initIndexedDB_records w :
  let w' := (initIndexedDB w).2 in
  records MOODS_STORE (disk w') = records MOODS_STORE (disk w) /\
  records STRESS_QUIZ_STORE (disk w') = records STRESS_QUIZ_STORE (disk w) /\
  records JOURNAL_STORE (disk w') = records JOURNAL_STORE (disk w).
Proof.
  unfold initIndexedDB.
  destruct (initPromise w); [simpl; auto|].
  destruct (window_indexedDB w); simpl; [|auto].
  unfold indexedDB_open, next_fault, DB_VERSION.
  destruct (faults w) as [|[name|] rest]; simpl; auto;
    (destruct (2 <? version (disk w)); simpl; [auto|]);
    (destruct (version (disk w) <? 2); simpl; [|auto]);
    (destruct (onupgradeneeded _ _) as [d'|e] eqn:E; simpl;
     [apply onupgradeneeded_records in E; exact E | auto]).
Qed.

Lemma ensure_db_records w :
  let w' := (ensure_db w).2 in
  records MOODS_STORE (disk w') = records MOODS_STORE (disk w) /\
  records STRESS_QUIZ_STORE (disk w') = records STRESS_QUIZ_STORE (disk w) /\
  records JOURNAL_STORE (disk w') = records JOURNAL_STORE (disk w).
Proof.
  unfold ensure_db. destruct (db w); [simpl; auto|apply initIndexedDB_records].
Qed.

(** The first call in a fresh browser opens the connection and leaves
    the three stores in place, with the records the database had. *)
Lemma initIndexedDB_fresh w :
  fresh w ->
  exists w',
    initIndexedDB w = (Resolved (), w') /\ ready w' /\
    version (disk w') = DB_VERSION /\
    initPromise w' = Some (Resolved ()) /\
    records MOODS_STORE (disk w') = records MOODS_STORE (disk w) /\
    records STRESS_QUIZ_STORE (disk w') = records STRESS_QUIZ_STORE (disk w) /\
    records JOURNAL_STORE (disk w') = records JOURNAL_STORE (disk w) /\
    now w' = now w /\ clock w' = clock w /\ tz w' = tz w.
Proof.
  intros (Hdb & Hp & Hwin & Hf & Hdisk).
  unfold initIndexedDB, indexedDB_open, next_fault. rewrite Hp, Hwin, Hf. simpl.
  destruct w as [win [v m q j] d p f n c z]; simpl in *.
  destruct Hdisk as [(-> & -> & -> & ->) | [(-> & [m' ->] & -> & ->)
                    | (-> & [m' ->] & [q' ->] & [j' ->])]];
    simpl; eexists; (split; [reflexivity|]); unfold ready, connected, records; simpl;
    repeat split; eauto.
Qed.

(** An accessor called before the connection exists opens it first. *)
Lemma ensure_db_fresh w :
  fresh w ->
  exists w',
    ensure_db w = (Resolved (), w') /\ ready w' /\
    records MOODS_STORE (disk w') = records MOODS_STORE (disk w) /\
    records STRESS_QUIZ_STORE (disk w') = records STRESS_QUIZ_STORE (disk w) /\
    records JOURNAL_STORE (disk w') = records JOURNAL_STORE (disk w).
Proof.
  intros Hw. destruct (initIndexedDB_fresh w Hw)
    as (w' & E & Hr & _ & _ & Hm & Hq & Hj & _).
  exists w'. unfold ensure_db. destruct Hw as (-> & _). auto.
Qed.

(** Opening a database that is already at the current version runs no
    upgrade and changes nothing on disk. *)
Lemma indexedDB_open_same_version w :
  version (disk w) = DB_VERSION ->
  disk (indexedDB_open DB_VERSION onupgradeneeded w).2 = disk w.
Proof.
  intros Hv. unfold indexedDB_open, next_fault.
  destruct (faults w) as [|[name|] rest]; simpl; rewrite ?Hv; reflexivity.
Qed.

(* ===================================================================== *)
(** ** Date-keyed reads and writes *)
(* ===================================================================== *)

Lemma ready_store {V} (S : ObjectStore V) w :
  is_Some (os_get S (disk w)) -> os_get S (disk w) = Some (records S (disk w)).
Proof. intros [s Hs]. unfold records. now rewrite Hs. Qed.

Ltac ready_hyps H :=
  destruct H as [(?Hdb & ?Hm & ?Hq & ?Hj) ?Hf];
  apply (ready_store MOODS_STORE) in Hm;
  apply (ready_store STRESS_QUIZ_STORE) in Hq;
  apply (ready_store JOURNAL_STORE) in Hj.

(** Decide a closed statement about a scenario by running it. *)
Ltac by_evaluation :=
  unfold ready, connected, keyed, inline_keys;
  apply (bool_decide_unpack _); vm_compute; exact I.

Lemma used_browser_ready : ready used_browser.
Proof. by_evaluation. Qed.

Lemma used_browser_keyed : keyed (disk used_browser).
Proof. by_evaluation. Qed.

(** C5 (key uniqueness, last write wins).  In each collection, two
    puts of records with the same date followed by a get of that date
    return the second record, and a full scan then holds that record and
    no other with this date. *)
Theorem last_write_wins w m1 m2 q1 q2 j1 j2 :
  ready w -> keyed (disk w) ->
  MoodEntry.date m1 = MoodEntry.date m2 ->
  StressQuizEntry.date q1 = StressQuizEntry.date q2 ->
  JournalEntry.date j1 = JournalEntry.date j2 ->
  (exists all,
     (storage.saveMood m1;; storage.saveMood m2;;
      r ← storage.getMoodByDate (MoodEntry.date m1);
      all ← storage.getAllMoods; mret (r, all)) w
     = (Resolved (Some m2, all),
        commit MOODS_STORE (<[MoodEntry.date m2 := m2]> (records MOODS_STORE (disk w))) w)
     /\ dated MOODS_STORE (MoodEntry.date m1) all = [m2]) /\
  (exists all,
     (stressQuizStorage.saveQuizResult q1;; stressQuizStorage.saveQuizResult q2;;
      r ← stressQuizStorage.getQuizByDate (StressQuizEntry.date q1);
      all ← stressQuizStorage.getAllQuizzes; mret (r, all)) w
     = (Resolved (Some q2, all),
        commit STRESS_QUIZ_STORE
          (<[StressQuizEntry.date q2 := q2]> (records STRESS_QUIZ_STORE (disk w))) w)
     /\ dated STRESS_QUIZ_STORE (StressQuizEntry.date q1) all = [q2]) /\
  (exists all,
     (journalStorage.saveJournal j1;; journalStorage.saveJournal j2;;
      r ← journalStorage.getJournalByDate (JournalEntry.date j1);
      all ← journalStorage.getAllJournals; mret (r, all)) w
     = (Resolved (Some j2, all),
        commit JOURNAL_STORE
          (<[JournalEntry.date j2 := j2]> (records JOURNAL_STORE (disk w))) w)
     /\ dated JOURNAL_STORE (JournalEntry.date j1) all = [j2]).
Proof.
  intros Hr (Km & Kq & Kj) Em Eq Ej. ready_hyps Hr.
  split; [|split].
  - apply (put_put_get_getAll MOODS_STORE); auto with stores.
  - apply (put_put_get_getAll STRESS_QUIZ_STORE); auto with stores.
  - apply (put_put_get_getAll JOURNAL_STORE); auto with stores.
Qed.

Lemma last_write_wins_witness :
  (exists all,
     (storage.saveMood mood_a;; storage.saveMood mood_b;;
      r ← storage.getMoodByDate "2024-01-15";
      all ← storage.getAllMoods; mret (r, all)) used_browser
     = (Resolved (Some mood_b, all),
        commit MOODS_STORE
          (<["2024-01-15" := mood_b]> (records MOODS_STORE (disk used_browser)))
          used_browser)
     /\ dated MOODS_STORE "2024-01-15" all = [mood_b]).
Proof.
  apply (last_write_wins used_browser mood_a mood_b quiz_a quiz_b journal_a journal_b
           used_browser_ready used_browser_keyed eq_refl eq_refl eq_refl).
Defined.

(** C6 (round trip).  For each record type, a put followed by a get of
    the record's date returns that very record, every field as written. *)
Theorem put_get_round_trip w m q j :
  ready w ->
  (storage.saveMood m;; storage.getMoodByDate (MoodEntry.date m)) w
  = (Resolved (Some m),
     commit MOODS_STORE (<[MoodEntry.date m := m]> (records MOODS_STORE (disk w))) w) /\
  (stressQuizStorage.saveQuizResult q;;
   stressQuizStorage.getQuizByDate (StressQuizEntry.date q)) w
  = (Resolved (Some q),
     commit STRESS_QUIZ_STORE
       (<[StressQuizEntry.date q := q]> (records STRESS_QUIZ_STORE (disk w))) w) /\
  (journalStorage.saveJournal j;;
   journalStorage.getJournalByDate (JournalEntry.date j)) w
  = (Resolved (Some j),
     commit JOURNAL_STORE
       (<[JournalEntry.date j := j]> (records JOURNAL_STORE (disk w))) w).
Proof.
  intros Hr. ready_hyps Hr.
  split; [|split].
  - apply (put_get MOODS_STORE); auto with stores.
  - apply (put_get STRESS_QUIZ_STORE); auto with stores.
  - apply (put_get JOURNAL_STORE); auto with stores.
Qed.

Lemma put_get_round_trip_witness :
  ready used_browser /\
  ((storage.saveMood mood_b;; storage.getMoodByDate "2024-01-15") used_browser).1
  = Resolved (Some mood_b) /\
  ((stressQuizStorage.saveQuizResult quiz_b;;
    stressQuizStorage.getQuizByDate "2024-01-15") used_browser).1
  = Resolved (Some quiz_b) /\
  ((journalStorage.saveJournal journal_b;;
    journalStorage.getJournalByDate "2024-01-15") used_browser).1
  = Resolved (Some journal_b).
Proof.
  split; [exact used_browser_ready|].
  destruct (put_get_round_trip used_browser mood_b quiz_b journal_b used_browser_ready)
    as (Hm & Hq & Hj).
  change (MoodEntry.date mood_b) with "2024-01-15" in Hm.
  change (StressQuizEntry.date quiz_b) with "2024-01-15" in Hq.
  change (JournalEntry.date journal_b) with "2024-01-15" in Hj.
  rewrite Hm, Hq, Hj. repeat split.
Defined.

(** C8 (idempotent delete).  Deleting a date that has no record
    resolves and leaves the world as it was; deleting a date twice in a
    row gives the result and the world that deleting it once gives.
    ([moods] and [journals]: the quiz store has no delete.) *)
Theorem delete_idempotent w absent d :
  ready w ->
  records MOODS_STORE (disk w) !! absent = None ->
  records JOURNAL_STORE (disk w) !! absent = None ->
  storage.deleteMood absent w = (Resolved (), w) /\
  journalStorage.deleteJournal absent w = (Resolved (), w) /\
  (storage.deleteMood d;; storage.deleteMood d) w = storage.deleteMood d w /\
  (journalStorage.deleteJournal d;; journalStorage.deleteJournal d) w
  = journalStorage.deleteJournal d w /\
  storage.deleteMood d w
  = (Resolved (), commit MOODS_STORE (delete d (records MOODS_STORE (disk w))) w) /\
  journalStorage.deleteJournal d w
  = (Resolved (), commit JOURNAL_STORE (delete d (records JOURNAL_STORE (disk w))) w).
Proof.
  intros Hr Am Aj. ready_hyps Hr.
  repeat split.
  - apply (del_absent MOODS_STORE MOODS_STORE_lawful w _ Hdb Hf Hm _ Am).
  - apply (del_absent JOURNAL_STORE JOURNAL_STORE_lawful w _ Hdb Hf Hj _ Aj).
  - apply (del_del MOODS_STORE MOODS_STORE_lawful w _ d Hdb Hf Hm).
  - apply (del_del JOURNAL_STORE JOURNAL_STORE_lawful w _ d Hdb Hf Hj).
  - apply (del_ready MOODS_STORE w _ Hdb Hf Hm).
  - apply (del_ready JOURNAL_STORE w _ Hdb Hf Hj).
Qed.

Lemma delete_idempotent_witness :
  storage.deleteMood "2024-01-20" used_browser = (Resolved (), used_browser) /\
  journalStorage.deleteJournal "2024-01-20" used_browser = (Resolved (), used_browser) /\
  (storage.deleteMood "2024-01-14";; storage.deleteMood "2024-01-14") used_browser
  = storage.deleteMood "2024-01-14" used_browser /\
  (journalStorage.deleteJournal "2024-01-14";;
   journalStorage.deleteJournal "2024-01-14") used_browser
  = journalStorage.deleteJournal "2024-01-14" used_browser.
Proof.
  destruct (delete_idempotent used_browser "2024-01-20" "2024-01-14"
              used_browser_ready) as (H1 & H2 & H3 & H4 & _);
    [vm_compute; reflexivity | vm_compute; reflexivity |].
  repeat split; assumption.
Defined.



(** The same lookup as the first call of a fresh browser: the
    connection is opened on the way and the answer is null. *)
Lemma getMoodByDate_fresh w d :
  fresh w -> records MOODS_STORE (disk w) !! d = None ->
  resolved (storage.getMoodByDate d w) = Some None.
Proof.
  intros Hw Hd. destruct (ensure_db_fresh w Hw) as (w' & E & Hr & Hm' & _).
  ready_hyps Hr. unfold storage.getMoodByDate.
  rewrite (bind_resolved _ _ _ _ _ E).
  rewrite (request_ready MOODS_STORE _ w' _ Hdb Hf Hm).
  unfold resolved. simpl. now rewrite Hm', Hd.
Qed.

(** [clearAll] never changes a quiz or journal record, in whatever state
    the connection and the backend are. *)
Lemma clearAll_frame w :
  records STRESS_QUIZ_STORE (disk (after storage.clearAll w))
  = records STRESS_QUIZ_STORE (disk w) /\
  records JOURNAL_STORE (disk (after storage.clearAll w))
  = records JOURNAL_STORE (disk w).
Proof.
  unfold after, storage.clearAll, mbind, Async_bind.
  pose proof (ensure_db_records w) as (_ & Hq & Hj). simpl in Hq, Hj.
  destruct (ensure_db w) as [[[]|e] w1]; simpl in *; [|auto].
  unfold request, next_fault. simpl.
  destruct (db w1), (moods (disk w1)), (faults w1) as [|[name|] rest];
    simpl; auto.
Qed.

(** C10 (frame of clearAll).  [clearAll] empties the [moods] store and
    leaves the [stressQuizzes] and [journals] stores exactly as they
    were. *)
Theorem clearAll_only_moods w :
  ready w ->
  storage.clearAll w = (Resolved (), commit MOODS_STORE ∅ w) /\
  moods (disk (after storage.clearAll w)) = Some ∅ /\
  storage.getAllMoods (after storage.clearAll w)
  = (Resolved [], after storage.clearAll w) /\
  stressQuizzes (disk (after storage.clearAll w)) = stressQuizzes (disk w) /\
  journals (disk (after storage.clearAll w)) = journals (disk w) /\
  version (disk (after storage.clearAll w)) = version (disk w).
Proof.
  intros Hr. ready_hyps Hr.
  assert (E : storage.clearAll w = (Resolved (), commit MOODS_STORE ∅ w))
    by (unfold storage.clearAll; now rewrite (access_ready MOODS_STORE _ w _ Hdb Hf Hm)).
  unfold after. rewrite E. simpl. split; [reflexivity|]. split; [reflexivity|].
  split; [|repeat split].
  unfold storage.getAllMoods.
  rewrite (access_ready MOODS_STORE _ _ ∅) by (assumption || reflexivity).
  rewrite store_getAll_empty. reflexivity.
Qed.

Lemma clearAll_only_moods_witness :
  ready used_browser /\
  is_Some (records MOODS_STORE (disk used_browser) !! "2024-01-14") /\
  moods (disk (after storage.clearAll used_browser)) = Some ∅ /\
  stressQuizzes (disk (after storage.clearAll used_browser))
  = stressQuizzes (disk used_browser) /\
  journals (disk (after storage.clearAll used_browser)) = journals (disk used_browser).
Proof.
  split; [exact used_browser_ready|].
  split; [by_evaluation|].
  destruct (clearAll_only_moods used_browser used_browser_ready)
    as (_ & Hm & _ & Hq & Hj & _).
  repeat split; assumption.
Defined.

(** C7 (schema upgrade).  The upgrade handler never throws.  It keeps
    every store that exists, with its records; it creates [moods] when
    absent whatever the old version; it creates [stressQuizzes] and
    [journals] when absent exactly when the old version is below 2; it
    leaves the version number to the open request.  Run again on its own
    result, with the same old version or with the current version, it
    changes nothing. *)
Theorem upgrade_creates_missing_stores oldVersion database :
  exists database',
    onupgradeneeded oldVersion database = Resolved database' /\
    moods database' = Some (records MOODS_STORE database) /\
    stressQuizzes database'
    = (if oldVersion <? 2 then Some (records STRESS_QUIZ_STORE database)
       else stressQuizzes database) /\
    journals database'
    = (if oldVersion <? 2 then Some (records JOURNAL_STORE database)
       else journals database) /\
    version database' = version database /\
    records MOODS_STORE database' = records MOODS_STORE database /\
    records STRESS_QUIZ_STORE database' = records STRESS_QUIZ_STORE database /\
    records JOURNAL_STORE database' = records JOURNAL_STORE database /\
    onupgradeneeded oldVersion database' = Resolved database' /\
    onupgradeneeded DB_VERSION database' = Resolved database'.
Proof.
  eexists. split; [apply onupgradeneeded_result|].
  rewrite !onupgradeneeded_result. unfold records, DB_VERSION. simpl.
  destruct database as [v m q j]; simpl.
  destruct (oldVersion <? 2), m, q, j; simpl; repeat split.
Qed.

(* ===================================================================== *)
(** ** The stress quiz record *)
(* ===================================================================== *)

Lemma fold_left_sum l a :
  fold_left (fun sum value => sum + value) l a = a + foldr Z.add 0 l.
Proof.
  revert a. induction l as [|x l IH]; intros a; simpl; [lia|].
  rewrite IH. lia.
Qed.

Lemma sum_Permutation (l1 l2 : list (Z * Z)) :
  l1 ≡ₚ l2 -> foldr Z.add 0 l1.*2 = foldr Z.add 0 l2.*2.
Proof.
  induction 1 as [|x l l' _ IH|x y l|l l' l'' _ IH1 _ IH2];
    rewrite ?fmap_cons; simpl; lia.
Qed.

Lemma sum_values_foldr (m : gmap Z Z) :
  sum_values m = foldr Z.add 0 (map_to_list m).*2.
Proof.
  unfold sum_values. rewrite map_fold_foldr.
  induction (map_to_list m) as [|[k v] l IH]; simpl; [reflexivity|].
  now rewrite IH.
Qed.

Lemma calculateScore_sum st :
  StressQuiz.calculateScore st = sum_values (StressQuiz.answers st).
Proof.
  unfold StressQuiz.calculateScore, StressQuiz.Object_values.
  rewrite fold_left_sum, sum_values_foldr.
  rewrite (sum_Permutation _ _ (sort_Permutation _ _)). lia.
Qed.

Lemma getStressLevel_banded totalScore :
  banded totalScore (StressQuiz.label (StressQuiz.getStressLevel totalScore)).
Proof.
  unfold banded, StressQuiz.getStressLevel. simpl.
  destruct (Z.leb_spec totalScore 25); [left; split; [lia|reflexivity]|].
  destruct (Z.leb_spec totalScore 40); simpl.
  - right; left. split; [lia|reflexivity].
  - right; right. split; [lia|reflexivity].
Qed.

(** Reading the clock changes nothing but the clock. *)
Lemma Date_now_frame w :
  exists t w1,
    Date_now w = (Resolved t, w1) /\ db w1 = db w /\ faults w1 = faults w /\
    disk w1 = disk w /\ tz w1 = tz w.
Proof.
  unfold Date_now. destruct (clock w) as [|t c]; do 2 eexists; repeat split.
Qed.

(** C3 (quiz score invariant).  The record [handleSubmit] builds and
    stores carries the answers given, their sum as its score, and the
    level that bands this score: Low up to 25, Moderate from 26 to 40,
    High from 41; the scores 25, 26, 40 and 41 fall in Low, Moderate,
    Moderate and High. *)
Theorem quiz_score_invariant st w :
  ready w ->
  exists entry,
    StressQuiz.handleSubmit st w
    = (Resolved (StressQuiz.mkState (StressQuiz.answers st) true
                   (StressQuizEntry.score entry)),
       after (StressQuiz.handleSubmit st) w) /\
    stressQuizStorage.getQuizByDate (StressQuizEntry.date entry)
      (after (StressQuiz.handleSubmit st) w)
    = (Resolved (Some entry), after (StressQuiz.handleSubmit st) w) /\
    StressQuizEntry.answers entry = StressQuiz.answers st /\
    StressQuizEntry.score entry = sum_values (StressQuizEntry.answers entry) /\
    banded (StressQuizEntry.score entry) (StressQuizEntry.level entry) /\
    StressQuiz.label (StressQuiz.getStressLevel 25) = Low /\
    StressQuiz.label (StressQuiz.getStressLevel 26) = Moderate /\
    StressQuiz.label (StressQuiz.getStressLevel 40) = Moderate /\
    StressQuiz.label (StressQuiz.getStressLevel 41) = High.
Proof.
  intros Hr. ready_hyps Hr.
  destruct (Date_now_frame w) as (t1 & w1 & E1 & Hdb1 & Hf1 & Hd1 & Hz1).
  destruct (Date_now_frame w1) as (t2 & w2 & E2 & Hdb2 & Hf2 & Hd2 & Hz2).
  set (entry := StressQuizEntry.mk (JS.format_yyyy_MM_dd (tz w1) t1)
                  (StressQuiz.calculateScore st)
                  (StressQuiz.label (StressQuiz.getStressLevel (StressQuiz.calculateScore st)))
                  (StressQuiz.answers st) t2).
  assert (Hq2 : os_get STRESS_QUIZ_STORE (disk w2)
                = Some (records STRESS_QUIZ_STORE (disk w)))
    by (rewrite Hd2, Hd1; exact Hq).
  assert (Hdb2' : db w2 = true) by congruence.
  assert (Hf2' : faults w2 = []) by congruence.
  pose proof (put_ready STRESS_QUIZ_STORE w2 _ Hdb2' Hf2' Hq2 entry) as Hput.
  unfold put_in in Hput.
  set (w3 := commit STRESS_QUIZ_STORE _ w2) in Hput.
  assert (E : StressQuiz.handleSubmit st w
              = (Resolved (StressQuiz.mkState (StressQuiz.answers st) true
                             (StressQuiz.calculateScore st)), w3)).
  { unfold StressQuiz.handleSubmit, try_catch.
    rewrite (bind_resolved _ _ _ _ _ E1).
    unfold timezone at 1. unfold mbind at 1, Async_bind at 1.
    rewrite (bind_resolved _ _ _ _ _ E2).
    unfold stressQuizStorage.saveQuizResult. simpl StressQuiz.answers.
    fold entry. rewrite (bind_resolved _ _ _ _ _ Hput). reflexivity. }
  exists entry. unfold after. rewrite E. simpl.
  split; [reflexivity|]. split.
  - change (stressQuizStorage.getQuizByDate ?d) with (get_from STRESS_QUIZ_STORE d).
    rewrite (get_ready STRESS_QUIZ_STORE STRESS_QUIZ_STORE_lawful w3
               (<[StressQuizEntry.date entry := entry]>
                  (records STRESS_QUIZ_STORE (disk w)))); try assumption.
    + now rewrite lookup_insert_eq.
    + apply (commit_get STRESS_QUIZ_STORE STRESS_QUIZ_STORE_lawful).
  - split; [reflexivity|]. split; [apply calculateScore_sum|].
    split; [apply getStressLevel_banded|]. repeat split.
Qed.

Lemma quiz_score_invariant_witness :
  ready used_browser /\
  exists entry,
    resolved (StressQuiz.handleSubmit quiz_filled used_browser)
    = Some (StressQuiz.mkState (StressQuiz.answers quiz_filled) true 26) /\
    StressQuizEntry.score entry = 26 /\
    StressQuizEntry.score entry = sum_values (StressQuizEntry.answers entry) /\
    banded (StressQuizEntry.score entry) (StressQuizEntry.level entry).
Proof.
  split; [exact used_browser_ready|].
  destruct (quiz_score_invariant quiz_filled used_browser used_browser_ready)
    as (entry & E & _ & _ & Hsum & Hband & _).
  exists entry.
  assert (Hscore : StressQuizEntry.score entry = 26).
  { assert (H : resolved (StressQuiz.handleSubmit quiz_filled used_browser)
                = Some (StressQuiz.mkState (StressQuiz.answers quiz_filled) true 26))
      by (vm_compute; reflexivity).
    rewrite E in H. unfold resolved in H. simpl in H. congruence. }
  split; [rewrite E; unfold resolved; simpl; now rewrite Hscore|].
  repeat split; assumption.
Defined.

(* ===================================================================== *)
(** ** The journal record *)
(* ===================================================================== *)

(** A save made when the page already holds a [lastSaved] instant
    stores that instant as [createdAt], and the clock reading taken at
    the start of the save as [lastModified]. *)
Lemma save_stamps_lastSaved draft st w t :
  ready w -> JS.trim (Journal.content st) <> "" -> Journal.lastSaved st = Some t ->
  exists entry,
    journalStorage.getJournalByDate (JournalEntry.date entry)
      (after (Journal.save draft st) w)
    = (Resolved (Some entry), after (Journal.save draft st) w) /\
    JournalEntry.createdAt entry = t /\
    JournalEntry.lastModified entry = next_reading w /\
    JournalEntry.draft entry = Some draft.
Proof.
  intros Hr Hc Hl. ready_hyps Hr.
  destruct (Date_now_frame w) as (t1 & w1 & E1 & Hdb1 & Hf1 & Hd1 & Hz1).
  set (entry := JournalEntry.mk (JS.format_yyyy_MM_dd (tz w) (now w))
                  (JS.trim (Journal.content st)) (Some draft) t1 t).
  assert (Hj1 : os_get JOURNAL_STORE (disk w1) = Some (records JOURNAL_STORE (disk w)))
    by (rewrite Hd1; exact Hj).
  assert (Hdb1' : db w1 = true) by congruence.
  assert (Hf1' : faults w1 = []) by congruence.
  pose proof (put_ready JOURNAL_STORE w1 _ Hdb1' Hf1' Hj1 entry) as Hput.
  unfold put_in in Hput.
  set (w2 := commit JOURNAL_STORE _ w1) in Hput.
  destruct (Date_now_frame w2) as (t3 & w3 & E3 & Hdb3 & Hf3 & Hd3 & Hz3).
  assert (E : Journal.save draft st w
              = (Resolved (Journal.mkState (Journal.content st) false (Some t3) draft
                             (Journal.showDeleteConfirm st)), w3)).
  { unfold Journal.save. apply String.eqb_neq in Hc. rewrite Hc.
    unfold try_catch, Journal.todayStr.
    unfold mbind at 1, Async_bind at 1.
    rewrite (bind_resolved _ _ _ _ _ E1). rewrite Hl.
    unfold mbind at 1, Async_bind at 1.
    change (@mret Async _ Z t w1) with (@Resolved Z t, w1). cbv beta iota.
    unfold journalStorage.saveJournal. fold entry.
    rewrite (bind_resolved _ _ _ _ _ Hput).
    rewrite (bind_resolved _ _ _ _ _ E3). reflexivity. }
  exists entry. unfold after. rewrite E. simpl.
  split; [|split; [reflexivity|split; [|reflexivity]]].
  - assert (Hdb3' : db w3 = true) by (rewrite Hdb3; exact Hdb1').
    assert (Hf3' : faults w3 = []) by (rewrite Hf3; exact Hf1').
    assert (Hj3 : os_get JOURNAL_STORE (disk w3)
                  = Some (<[JournalEntry.date entry := entry]>
                            (records JOURNAL_STORE (disk w))))
      by (rewrite Hd3; apply (commit_get JOURNAL_STORE JOURNAL_STORE_lawful)).
    change (journalStorage.getJournalByDate ?d) with (get_from JOURNAL_STORE d).
    rewrite (get_ready JOURNAL_STORE JOURNAL_STORE_lawful w3 _ Hdb3' Hf3' Hj3).
    now rewrite lookup_insert_eq.
  - unfold Date_now, next_reading in *.
    destruct (clock w); simpl; congruence.
Qed.

(** C1 (journal draft/final transition), evaluated on the code.  A
    journal entry is auto-saved as a draft and then saved explicitly,
    four milliseconds having passed while the draft was being written to
    the store.  The draft is stored with [createdAt] 10:00:02.000; the
    explicit save stores the entry again with [createdAt] 10:00:02.004,
    the instant the page recorded as [lastSaved], so [createdAt] is not
    preserved.  ([lastModified] does increase, and [draft] goes from true
    to false.) *)
Theorem journal_createdAt_restamped :
  resolved (journalStorage.getJournalByDate "2024-01-15" journal_loaded.2) = Some None /\
  resolved (journalStorage.getJournalByDate "2024-01-15" journal_drafted.2)
  = Some (Some (JournalEntry.mk "2024-01-15" "Dear diary" (Some true)
                  (morning + 2000) (morning + 2000))) /\
  Journal.lastSaved <$> resolved journal_drafted = Some (Some (morning + 2004)) /\
  resolved (journalStorage.getJournalByDate "2024-01-15" journal_saved.2)
  = Some (Some (JournalEntry.mk "2024-01-15" "Dear diary" (Some false)
                  (morning + 60000) (morning + 2004))).
Proof. vm_compute. repeat split. Qed.

(** After a delete the page holds no [lastSaved], and the next draft is
    stamped with the clock reading of its own creation. *)
Example journal_rewritten_after_delete :
  resolved (journalStorage.getJournalByDate "2024-01-15" journal_deleted.2) = Some None /\
  Journal.lastSaved <$> resolved journal_deleted = Some None /\
  resolved (journalStorage.getJournalByDate "2024-01-15" journal_rewritten.2)
  = Some (Some (JournalEntry.mk "2024-01-15" "Again" (Some true)
                  (morning + 125000) (morning + 125000))).
Proof. vm_compute. repeat split. Qed.

(* ===================================================================== *)
(** ** Streak and weekly data *)
(* ===================================================================== *)



(** C2 (streak), evaluated on the code.  In Bogota (UTC-05:00) the user
    logs a mood at local noon on 2024-01-13, 2024-01-14 and 2024-01-15.
    The store then holds records for today, yesterday and the day
    before, and [getStreak] returns 0, not 3: the key "2024-01-15" is
    parsed as UTC midnight, which is 19:00 of 2024-01-14 in Bogota, so
    [setHours(0,0,0,0)] puts today's record one whole day before today's
    local midnight, and the walk stops at index 0. *)
Theorem streak_zero_west_of_utc :
  resolved (MoodTracker.todayStr (logged_13_14_15 bogota).2) = Some "2024-01-15" /\
  resolved (storage.getAllMoods (logged_13_14_15 bogota).2)
  = Some [MoodEntry.mk "2024-01-13" happy None;
          MoodEntry.mk "2024-01-14" happy None;
          MoodEntry.mk "2024-01-15" happy None] /\
  JS.Date_parse "2024-01-15" = Some jan15 /\
  JS.setHours0 bogota jan15 = jan15 - 19 * 3600000 /\
  JS.setHours0 bogota (noon bogota) = jan15 + 5 * 3600000 /\
  (JS.setHours0 bogota (noon bogota) - JS.setHours0 bogota jan15) / JS.msPerDay = 1 /\
  resolved (storage.getStreak (logged_13_14_15 bogota).2) = Some 0 /\
  MoodTracker.streak <$> resolved (logged_13_14_15 bogota) = Some 0.
Proof. vm_compute. repeat split. Qed.

(** The same three days in Kolkata (UTC+05:30) give a streak of 3, and
    the other cases come out as expected there. *)
Example streak_three_days_kolkata :
  resolved (storage.getStreak (logged_13_14_15 kolkata).2) = Some 3.
Proof. vm_compute. reflexivity. Qed.

Example streak_no_records_kolkata :
  resolved (storage.getStreak (browser kolkata (noon kolkata))) = Some 0.
Proof. vm_compute. reflexivity. Qed.

Example streak_without_today_kolkata :
  resolved (storage.getStreak (reopened (noon kolkata) (logged_13_14 kolkata))) = Some 0.
Proof. vm_compute. reflexivity. Qed.

Example streak_gap_yesterday_kolkata :
  resolved (storage.getStreak (logged_13_15 kolkata).2) = Some 1.
Proof. vm_compute. reflexivity. Qed.

(** In Bogota a record for today and one for two days ago give 0, not 1. *)
Example streak_gap_yesterday_bogota :
  resolved (storage.getStreak (logged_13_15 bogota).2) = Some 0.
Proof. vm_compute. reflexivity. Qed.




(** C4 (weekly trend), evaluated on the code.  In Kolkata (UTC+05:30)
    the user saves a mood at 02:00 local time on 2024-01-15.  The record
    is stored under today's date "2024-01-15", the date every other path
    of the app calls today.  [getWeeklyData] returns seven slots that
    end on "2024-01-14", the UTC date of that instant: the last slot is
    not today, and today's mood is in none of them. *)
Theorem weekly_ends_on_utc_date :
  resolved (MoodTracker.todayStr saved_at_night.2) = Some "2024-01-15" /\
  resolved (storage.getMoodByDate "2024-01-15" saved_at_night.2)
  = Some (Some (MoodEntry.mk "2024-01-15" happy None)) /\
  resolved (storage.getStreak saved_at_night.2) = Some 1 /\
  resolved (storage.getWeeklyData saved_at_night.2)
  = Some [WeekData.mk "2024-01-08" None; WeekData.mk "2024-01-09" None;
          WeekData.mk "2024-01-10" None; WeekData.mk "2024-01-11" None;
          WeekData.mk "2024-01-12" None; WeekData.mk "2024-01-13" None;
          WeekData.mk "2024-01-14" None].
Proof. vm_compute. repeat split. Qed.

(* ===================================================================== *)
(** ** Initialization: memo, unsupported browser, newer schema *)
(* ===================================================================== *)

(** X1.  [initIndexedDB] keeps its promise: a second call returns the
    outcome of the first, success or failure, and changes nothing. *)
Theorem initIndexedDB_memo w :
  initIndexedDB (after initIndexedDB w)
  = ((initIndexedDB w).1, after initIndexedDB w).
Proof.
  unfold after, initIndexedDB.
  destruct (initPromise w) as [p|] eqn:E; simpl; [now rewrite E|].
  destruct (negb (window_indexedDB w)); simpl; [reflexivity|].
  destruct (indexedDB_open DB_VERSION onupgradeneeded w) as [[[]|e] w1]; reflexivity.
Qed.

Lemma ensure_db_unsupported w :
  unsupported w ->
  ensure_db w = (Rejected NOT_SUPPORTED, set_initPromise (Some (Rejected NOT_SUPPORTED)) w).
Proof.
  intros (Hwin & Hdb & Hp). unfold ensure_db, initIndexedDB.
  now rewrite Hdb, Hp, Hwin.
Qed.

Lemma ensure_db_failed w e :
  db w = false -> initPromise w = Some (Rejected e) -> ensure_db w = (Rejected e, w).
Proof. intros Hdb Hp. unfold ensure_db, initIndexedDB. now rewrite Hdb, Hp. Qed.

(** X2.  Without IndexedDB every accessor rejects with the error of
    [initIndexedDB], nothing is written, and it stays so: the failed
    initialization is remembered and never tried again. *)
Theorem unsupported_browser_rejects w m d :
  unsupported w ->
  let w' := set_initPromise (Some (Rejected NOT_SUPPORTED)) w in
  storage.saveMood m w = (Rejected NOT_SUPPORTED, w') /\
  storage.getMoodByDate d w = (Rejected NOT_SUPPORTED, w') /\
  storage.getAllMoods w = (Rejected NOT_SUPPORTED, w') /\
  storage.getStreak w = (Rejected NOT_SUPPORTED, w') /\
  storage.deleteMood d w = (Rejected NOT_SUPPORTED, w') /\
  storage.clearAll w = (Rejected NOT_SUPPORTED, w') /\
  journalStorage.getJournalByDate d w = (Rejected NOT_SUPPORTED, w') /\
  stressQuizStorage.getQuizByDate d w = (Rejected NOT_SUPPORTED, w') /\
  disk w' = disk w /\
  storage.saveMood m w' = (Rejected NOT_SUPPORTED, w') /\
  storage.getMoodByDate d w' = (Rejected NOT_SUPPORTED, w').
Proof.
  intros Hw w'. pose proof (ensure_db_unsupported w Hw) as E. fold w' in E.
  assert (E' : ensure_db w' = (Rejected NOT_SUPPORTED, w')).
  { apply ensure_db_failed; [apply Hw | reflexivity]. }
  assert (Eall : storage.getAllMoods w = (Rejected NOT_SUPPORTED, w'))
    by apply (bind_rejected _ _ _ _ _ E).
  split; [apply (bind_rejected _ _ _ _ _ E)|].
  split; [apply (bind_rejected _ _ _ _ _ E)|].
  split; [exact Eall|].
  split; [apply (bind_rejected _ _ _ _ _ Eall)|].
  split; [apply (bind_rejected _ _ _ _ _ E)|].
  split; [apply (bind_rejected _ _ _ _ _ E)|].
  split; [apply (bind_rejected _ _ _ _ _ E)|].
  split; [apply (bind_rejected _ _ _ _ _ E)|].
  split; [reflexivity|].
  split; apply (bind_rejected _ _ _ _ _ E').
Qed.

Lemma unsupported_browser_rejects_witness :
  unsupported no_indexedDB_browser /\
  resolved (storage.saveMood mood_a no_indexedDB_browser) = None /\
  disk (after (storage.saveMood mood_a) no_indexedDB_browser) = disk no_indexedDB_browser.
Proof.
  assert (H : unsupported no_indexedDB_browser) by (repeat split).
  split; [exact H|].
  destruct (unsupported_browser_rejects no_indexedDB_browser mood_a "2024-01-15" H)
    as (E & _).
  unfold resolved, after. rewrite E. split; reflexivity.
Defined.

(** X3.  The first call in a browser that holds the database of
    version 1 (or none, or the current one) resolves, leaves the
    connection open on a version 2 database with its three stores, and
    keeps every record the database had. *)
Theorem first_open_upgrades_in_place w :
  fresh w ->
  exists w',
    initIndexedDB w = (Resolved (), w') /\ ready w' /\
    version (disk w') = DB_VERSION /\
    records MOODS_STORE (disk w') = records MOODS_STORE (disk w) /\
    records STRESS_QUIZ_STORE (disk w') = records STRESS_QUIZ_STORE (disk w) /\
    records JOURNAL_STORE (disk w') = records JOURNAL_STORE (disk w).
Proof.
  intros Hw. destruct (initIndexedDB_fresh w Hw)
    as (w' & E & Hr & Hv & _ & Hm & Hq & Hj & _).
  exists w'. auto 10.
Qed.

Lemma first_open_upgrades_in_place_witness :
  fresh v1_browser /\
  exists w',
    initIndexedDB v1_browser = (Resolved (), w') /\ ready w' /\
    version (disk w') = DB_VERSION /\
    records MOODS_STORE (disk w') = records MOODS_STORE (disk v1_browser).
Proof.
  assert (H : fresh v1_browser).
  { repeat split. right; left. repeat split. eexists; reflexivity. }
  split; [exact H|].
  destruct (first_open_upgrades_in_place v1_browser H) as (w' & E & Hr & Hv & Hm & _).
  exists w'. split; [exact E|]. split; [exact Hr|]. split; [exact Hv|exact Hm].
Defined.

(** X4.  A database of a later schema version cannot be opened: the
    open request fails with a VersionError, the connection stays null,
    the database is untouched, and every accessor rejects with that
    error from then on. *)
Theorem newer_schema_rejects w m d :
  newer_schema w ->
  exists w',
    initIndexedDB w = (Rejected (DOMException "VersionError"), w') /\
    db w' = false /\ disk w' = disk w /\
    storage.saveMood m w' = (Rejected (DOMException "VersionError"), w') /\
    storage.getMoodByDate d w' = (Rejected (DOMException "VersionError"), w').
Proof.
  intros (Hwin & Hdb & Hp & Hf & Hv).
  assert (Hlt : (DB_VERSION <? version (disk w)) = true) by now apply Z.ltb_lt.
  assert (E : exists w1, indexedDB_open DB_VERSION onupgradeneeded w
                         = (Rejected (DOMException "VersionError"), w1)
                         /\ db w1 = db w /\ disk w1 = disk w
                         /\ initPromise w1 = initPromise w).
  { unfold indexedDB_open, next_fault.
    destruct (faults w) as [|[name|] rest]; simpl in *; try discriminate;
      rewrite Hlt; eexists; repeat split. }
  destruct E as (w1 & E & Hdb1 & Hd1 & Hp1).
  eexists. unfold initIndexedDB. rewrite Hp, Hwin, E. simpl.
  split; [reflexivity|]. simpl. split; [congruence|]. split; [assumption|].
  split; apply bind_rejected; apply ensure_db_failed; simpl; congruence.
Qed.

Lemma newer_schema_rejects_witness :
  newer_schema v3_browser /\
  resolved (storage.getMoodByDate "2024-01-15" (after initIndexedDB v3_browser)) = None /\
  disk (after initIndexedDB v3_browser) = disk v3_browser.
Proof.
  assert (H : newer_schema v3_browser) by (repeat split).
  split; [exact H|].
  destruct (newer_schema_rejects v3_browser mood_a "2024-01-15" H)
    as (w' & E & _ & Hd & _ & Hg).
  unfold after. rewrite E. simpl. unfold resolved. rewrite Hg. split; [reflexivity|exact Hd].
Defined.

(* ===================================================================== *)
(** ** Failed writes, frames, full scans *)
(* ===================================================================== *)

Lemma connected_store {V} (S : ObjectStore V) w :
  is_Some (os_get S (disk w)) -> os_get S (disk w) = Some (records S (disk w)).
Proof. apply ready_store. Qed.

(** X5.  A write the backend fails rejects with the backend's error
    and is not applied: the database is as it was.  The same write made
    again, once the backend serves requests, goes through. *)
Theorem failed_write_not_applied w name m q j d :
  connected w -> faults w = [Some name] ->
  let failed := (Rejected (DOMException name), set_faults [] w) in
  storage.saveMood m w = failed /\
  storage.deleteMood d w = failed /\
  storage.clearAll w = failed /\
  stressQuizStorage.saveQuizResult q w = failed /\
  journalStorage.saveJournal j w = failed /\
  journalStorage.deleteJournal d w = failed /\
  disk (set_faults [] w) = disk w /\
  (storage.saveMood m;; storage.getMoodByDate (MoodEntry.date m)) (set_faults [] w)
  = (Resolved (Some m),
     commit MOODS_STORE (<[MoodEntry.date m := m]> (records MOODS_STORE (disk w)))
       (set_faults [] w)).
Proof.
  intros (Hdb & Hm & Hq & Hj) Hf failed.
  apply (connected_store MOODS_STORE) in Hm.
  apply (connected_store STRESS_QUIZ_STORE) in Hq.
  apply (connected_store JOURNAL_STORE) in Hj.
  split; [apply (access_fault MOODS_STORE _ w _ name [] Hdb Hf Hm)|].
  split; [apply (access_fault MOODS_STORE _ w _ name [] Hdb Hf Hm)|].
  split; [apply (access_fault MOODS_STORE _ w _ name [] Hdb Hf Hm)|].
  split; [apply (access_fault STRESS_QUIZ_STORE _ w _ name [] Hdb Hf Hq)|].
  split; [apply (access_fault JOURNAL_STORE _ w _ name [] Hdb Hf Hj)|].
  split; [apply (access_fault JOURNAL_STORE _ w _ name [] Hdb Hf Hj)|].
  split; [reflexivity|].
  apply (put_get MOODS_STORE MOODS_STORE_lawful (set_faults [] w)); auto.
Qed.

Lemma failed_write_not_applied_witness :
  connected failing_browser /\
  storage.saveMood mood_a failing_browser
  = (Rejected (DOMException "QuotaExceededError"), set_faults [] failing_browser) /\
  disk (set_faults [] failing_browser) = disk failing_browser.
Proof.
  assert (H : connected failing_browser) by by_evaluation.
  split; [exact H|].
  destruct (failed_write_not_applied failing_browser "QuotaExceededError"
              mood_a quiz_a journal_a "2024-01-15" H eq_refl) as (E & _ & _ & _ & _ & _ & D & _).
  split; [exact E|exact D].
Defined.

Section Frame.
Context {V : Type} (S : ObjectStore V) (HS : lawful S).

Lemma put_get_other w store v d :
  db w = true -> faults w = [] -> os_get S (disk w) = Some store ->
  d <> keyPath S v ->
  (put_in S v;; get_from S d) w
  = (Resolved (store !! d), commit S (<[keyPath S v := v]> store) w).
Proof.
  intros Hdb Hf Hs Hd.
  rewrite (bind_resolved _ _ _ _ _ (put_ready S w store Hdb Hf Hs v)).
  rewrite (get_ready S HS _ (<[keyPath S v := v]> store)); try assumption.
  - now rewrite lookup_insert_ne.
  - apply (commit_get S HS).
Qed.

Lemma delete_get_other w store k d :
  db w = true -> faults w = [] -> os_get S (disk w) = Some store ->
  d <> k ->
  (delete_from S k;; get_from S d) w
  = (Resolved (store !! d), commit S (delete k store) w).
Proof.
  intros Hdb Hf Hs Hd.
  rewrite (bind_resolved _ _ _ _ _ (del_ready S w store Hdb Hf Hs k)).
  rewrite (get_ready S HS _ (delete k store)); try assumption.
  - now rewrite lookup_delete_ne.
  - apply (commit_get S HS).
Qed.

Lemma delete_get w store k :
  db w = true -> faults w = [] -> os_get S (disk w) = Some store ->
  (delete_from S k;; get_from S k) w = (Resolved None, commit S (delete k store) w).
Proof.
  intros Hdb Hf Hs.
  rewrite (bind_resolved _ _ _ _ _ (del_ready S w store Hdb Hf Hs k)).
  rewrite (get_ready S HS _ (delete k store)); try assumption.
  - now rewrite lookup_delete_eq.
  - apply (commit_get S HS).
Qed.

End Frame.

(** X6.  A put or a delete touches one date of one store: a lookup of
    any other date answers what the store held before, the two other
    stores are the same, and after a delete the deleted date is
    absent. *)
Theorem write_touches_one_date w m j d k :
  ready w -> d <> MoodEntry.date m -> d <> JournalEntry.date j -> d <> k ->
  resolved ((storage.saveMood m;; storage.getMoodByDate d) w)
  = Some (records MOODS_STORE (disk w) !! d) /\
  resolved ((journalStorage.saveJournal j;; journalStorage.getJournalByDate d) w)
  = Some (records JOURNAL_STORE (disk w) !! d) /\
  resolved ((storage.deleteMood k;; storage.getMoodByDate d) w)
  = Some (records MOODS_STORE (disk w) !! d) /\
  resolved ((journalStorage.deleteJournal k;; journalStorage.getJournalByDate d) w)
  = Some (records JOURNAL_STORE (disk w) !! d) /\
  resolved ((storage.deleteMood k;; storage.getMoodByDate k) w) = Some None /\
  resolved ((journalStorage.deleteJournal k;; journalStorage.getJournalByDate k) w)
  = Some None /\
  stressQuizzes (disk (after (storage.saveMood m) w)) = stressQuizzes (disk w) /\
  journals (disk (after (storage.saveMood m) w)) = journals (disk w) /\
  moods (disk (after (journalStorage.saveJournal j) w)) = moods (disk w) /\
  stressQuizzes (disk (after (journalStorage.deleteJournal k) w)) = stressQuizzes (disk w) /\
  moods (disk (after (journalStorage.deleteJournal k) w)) = moods (disk w).
Proof.
  intros Hr Hdm Hdj Hdk. ready_hyps Hr.
  pose proof (put_get_other MOODS_STORE MOODS_STORE_lawful w _ m d Hdb Hf Hm Hdm) as E1.
  pose proof (put_get_other JOURNAL_STORE JOURNAL_STORE_lawful w _ j d Hdb Hf Hj Hdj) as E2.
  pose proof (delete_get_other MOODS_STORE MOODS_STORE_lawful w _ k d Hdb Hf Hm Hdk) as E3.
  pose proof (delete_get_other JOURNAL_STORE JOURNAL_STORE_lawful w _ k d Hdb Hf Hj Hdk) as E4.
  pose proof (delete_get MOODS_STORE MOODS_STORE_lawful w _ k Hdb Hf Hm) as E5.
  pose proof (delete_get JOURNAL_STORE JOURNAL_STORE_lawful w _ k Hdb Hf Hj) as E6.
  pose proof (put_ready MOODS_STORE w _ Hdb Hf Hm m) as P1.
  pose proof (put_ready JOURNAL_STORE w _ Hdb Hf Hj j) as P2.
  pose proof (del_ready JOURNAL_STORE w _ Hdb Hf Hj k) as P3.
  unfold put_in, get_from, delete_from in *.
  unfold resolved, after.
  change (storage.saveMood m) with (ensure_db;; request MOODS_STORE (store_put MOODS_STORE m)).
  change (journalStorage.saveJournal j)
    with (ensure_db;; request JOURNAL_STORE (store_put JOURNAL_STORE j)).
  change (journalStorage.deleteJournal k)
    with (ensure_db;; request JOURNAL_STORE (store_delete k)).
  change (storage.deleteMood k) with (ensure_db;; request MOODS_STORE (store_delete k)).
  change (storage.getMoodByDate ?x) with (ensure_db;; request MOODS_STORE (store_get x)).
  change (journalStorage.getJournalByDate ?x)
    with (ensure_db;; request JOURNAL_STORE (store_get x)).
  rewrite E1, E2, E3, E4, E5, E6, P1, P2, P3. simpl. repeat split.
Qed.

Lemma write_touches_one_date_witness :
  ready used_browser /\
  resolved ((storage.saveMood mood_a;; storage.getMoodByDate "2024-01-14") used_browser)
  = Some (records MOODS_STORE (disk used_browser) !! "2024-01-14") /\
  is_Some (records MOODS_STORE (disk used_browser) !! "2024-01-14").
Proof.
  split; [exact used_browser_ready|].
  destruct (write_touches_one_date used_browser mood_a journal_a "2024-01-14" "2024-01-13"
              used_browser_ready) as (E & _); try discriminate.
  split; [exact E | by_evaluation].
Defined.

(* ===================================================================== *)
(** ** Full scans are complete and ordered *)
(* ===================================================================== *)

Section SortSorted.
Context {A : Type} (cmp : A -> A -> comparison).
Context (antisym : forall a b, cmp a b = Gt -> cmp b a <> Gt).

Lemma sort_insert_HdRel a x l :
  cmp a x <> Gt -> HdRel (fun a b => cmp a b <> Gt) a l ->
  HdRel (fun a b => cmp a b <> Gt) a (JS.sort_insert cmp x l).
Proof.
  intros Hax Hal. destruct l as [|y l]; simpl; [now constructor|].
  destruct (cmp x y); constructor; try assumption; now inversion Hal.
Qed.

Lemma sort_insert_Sorted x l :
  Sorted (fun a b => cmp a b <> Gt) l ->
  Sorted (fun a b => cmp a b <> Gt) (JS.sort_insert cmp x l).
Proof.
  induction 1 as [|y l Hl IH Hy]; simpl; [repeat constructor|].
  destruct (cmp x y) eqn:E.
  - repeat constructor; try assumption. congruence.
  - repeat constructor; try assumption. congruence.
  - constructor; [exact IH|]. apply sort_insert_HdRel; [now apply antisym|assumption].
Qed.

Lemma sort_Sorted l : Sorted (fun a b => cmp a b <> Gt) (JS.sort cmp l).
Proof.
  induction l as [|x l IH]; [constructor|]. now apply sort_insert_Sorted.
Qed.

End SortSorted.

Lemma string_compare_antisym (a b : string) :
  String.compare a b = Gt -> String.compare b a <> Gt.
Proof. intros H. rewrite String.compare_antisym, H. discriminate. Qed.

Section Scan.
Context {V : Type} (S : ObjectStore V).

(** Pairs sorted by key without a repeated key are strictly sorted. *)
Lemma Sorted_strict (l : list (string * V)) :
  Sorted (fun a b => String.compare a.1 b.1 <> Gt) l -> NoDup l.*1 ->
  Sorted (fun a b => String.compare a.1 b.1 = Lt) l.
Proof.
  induction 1 as [|a l Hl IH Ha]; intros Hnd; [constructor|].
  rewrite fmap_cons in Hnd. apply NoDup_cons in Hnd as [Hin Hnd].
  constructor; [now apply IH|].
  destruct Ha as [|b l' Hab]; constructor.
  destruct (String.compare a.1 b.1) eqn:E; [|reflexivity|contradiction].
  apply String.compare_eq_iff in E. exfalso. apply Hin.
  rewrite fmap_cons, <- E. left.
Qed.

Lemma Sorted_values (l : list (string * V)) :
  Forall (fun kv => keyPath S kv.2 = kv.1) l ->
  Sorted (fun a b => String.compare a.1 b.1 = Lt) l ->
  Sorted (fun a b => String.compare (keyPath S a) (keyPath S b) = Lt) l.*2.
Proof.
  intros Hk. induction 1 as [|a l Hl IH Ha]; [constructor|].
  apply Forall_cons in Hk as [Hka Hk]. rewrite fmap_cons.
  constructor; [now apply IH|].
  destruct Ha as [|b l' Hab]; [constructor|].
  apply Forall_cons in Hk as [Hkb _]. rewrite fmap_cons. constructor.
  now rewrite Hka, Hkb.
Qed.

Lemma store_getAll_scan (store : gmap string V) :
  inline_keys S store -> full_scan_of S store (store_getAll store).1.
Proof.
  intros Hk. unfold store_getAll. simpl.
  set (cmp := fun a b : string * V => String.compare a.1 b.1).
  pose proof (sort_Permutation cmp (map_to_list store)) as Hp.
  split; [|split].
  - intros r. rewrite Hp. split.
    + intros Hr. apply list_elem_of_fmap in Hr as [[k v] [-> Hin]].
      apply elem_of_map_to_list in Hin. simpl. now rewrite (Hk _ _ Hin).
    + intros Hr. apply list_elem_of_fmap. exists (keyPath S r, r).
      split; [reflexivity|]. now apply elem_of_map_to_list.
  - apply Sorted_values.
    + rewrite Hp. apply Forall_forall. intros [k v] Hin.
      apply elem_of_map_to_list in Hin. simpl. now apply Hk.
    + apply Sorted_strict.
      * apply (sort_Sorted cmp). intros a b. apply string_compare_antisym.
      * rewrite Hp. apply NoDup_fst_map_to_list.
  - rewrite length_fmap, (sort_length cmp), length_map_to_list. reflexivity.
Qed.

End Scan.

(** X7.  A full scan returns every record of the store exactly once, in
    strictly ascending order of date, and leaves the world untouched. *)
Theorem getAll_complete_and_sorted w :
  ready w -> keyed (disk w) ->
  exists lm lq lj,
    storage.getAllMoods w = (Resolved lm, w) /\
    full_scan_of MOODS_STORE (records MOODS_STORE (disk w)) lm /\
    stressQuizStorage.getAllQuizzes w = (Resolved lq, w) /\
    full_scan_of STRESS_QUIZ_STORE (records STRESS_QUIZ_STORE (disk w)) lq /\
    journalStorage.getAllJournals w = (Resolved lj, w) /\
    full_scan_of JOURNAL_STORE (records JOURNAL_STORE (disk w)) lj.
Proof.
  intros Hr (Km & Kq & Kj). ready_hyps Hr.
  do 3 eexists.
  split; [apply (getAll_ready MOODS_STORE MOODS_STORE_lawful w _ Hdb Hf Hm)|].
  split; [now apply store_getAll_scan|].
  split; [apply (getAll_ready STRESS_QUIZ_STORE STRESS_QUIZ_STORE_lawful w _ Hdb Hf Hq)|].
  split; [now apply store_getAll_scan|].
  split; [apply (getAll_ready JOURNAL_STORE JOURNAL_STORE_lawful w _ Hdb Hf Hj)|].
  now apply store_getAll_scan.
Qed.

Lemma getAll_complete_and_sorted_witness :
  ready (logged_13_14_15 kolkata).2 /\ keyed (disk (logged_13_14_15 kolkata).2) /\
  exists lm,
    storage.getAllMoods (logged_13_14_15 kolkata).2
    = (Resolved lm, (logged_13_14_15 kolkata).2) /\
    full_scan_of MOODS_STORE (records MOODS_STORE (disk (logged_13_14_15 kolkata).2)) lm.
Proof.
  assert (Hr : ready (logged_13_14_15 kolkata).2) by by_evaluation.
  assert (Hk : keyed (disk (logged_13_14_15 kolkata).2)) by by_evaluation.
  split; [exact Hr|]. split; [exact Hk|].
  destruct (getAll_complete_and_sorted _ Hr Hk) as (lm & _ & _ & E & F & _).
  exists lm. split; assumption.
Defined.

(* ===================================================================== *)
(** ** The streak walk *)
(* ===================================================================== *)

Lemma streak_loop_bounds tz today i sorted streak :
  streak <= storage.streak_loop tz today i sorted streak
         <= streak + Z.of_nat (length sorted).
Proof.
  revert i streak. induction sorted as [|e l IH]; intros i streak; simpl; [lia|].
  destruct (JS.Date_parse (MoodEntry.date e)); [|lia].
  destruct (_ =? i); [|lia].
  specialize (IH (i + 1) (streak + 1)). lia.
Qed.

(** [getStreak] on a ready store: 0 without reading the clock when
    there is no record, else the walk over the records, newest first,
    from today's local midnight. *)
Lemma getStreak_ready w :
  ready w ->
  storage.getStreak w
  = if bool_decide (records MOODS_STORE (disk w) = ∅) then (Resolved 0, w)
    else (Resolved (storage.streak_loop (tz w) (JS.setHours0 (tz w) (next_reading w)) 0
                      (newest_first (records MOODS_STORE (disk w))) 0),
          (Date_now w).2).
Proof.
  intros Hr. ready_hyps Hr.
  unfold storage.getStreak.
  rewrite (bind_resolved _ _ _ _ _
             (getAll_ready MOODS_STORE MOODS_STORE_lawful w _ Hdb Hf Hm)).
  set (store := records MOODS_STORE (disk w)).
  assert (Hlen : length (store_getAll store).1 = size store).
  { unfold store_getAll. simpl.
    now rewrite length_fmap, sort_length, length_map_to_list. }
  destruct (decide (store = ∅)) as [He|Hne].
  - rewrite (bool_decide_eq_true_2 _ He).
    rewrite bool_decide_eq_true_2; [reflexivity|].
    rewrite Hlen, He. apply map_size_empty.
  - rewrite (bool_decide_eq_false_2 _ Hne).
    rewrite bool_decide_eq_false_2.
    + destruct (Date_now_frame w) as (t & w1 & E & _ & _ & _ & Hz).
      assert (Ht : next_reading w = t)
        by (unfold Date_now, next_reading in *; destruct (clock w); simpl; congruence).
      rewrite (bind_resolved _ _ _ _ _ E). unfold timezone.
      unfold mbind at 1, Async_bind at 1. rewrite E, Ht, Hz. reflexivity.
    + rewrite Hlen. intros H. apply Hne. now apply map_size_empty_iff.
Qed.

Lemma newest_first_length store : length (newest_first store) = size store.
Proof.
  unfold newest_first. rewrite sort_length. unfold store_getAll. simpl.
  now rewrite length_fmap, sort_length, length_map_to_list.
Qed.

(** X8.  [getStreak] never fails on a ready store; its result lies
    between 0 and the number of mood records, and it is 0, with the
    clock not even read, when there is none. *)
Theorem getStreak_bounds w :
  ready w ->
  exists n,
    resolved (storage.getStreak w) = Some n /\
    0 <= n <= Z.of_nat (size (records MOODS_STORE (disk w))) /\
    disk (after storage.getStreak w) = disk w /\
    (if bool_decide (records MOODS_STORE (disk w) = ∅)
     then storage.getStreak w = (Resolved 0, w) else True).
Proof.
  intros Hr. rewrite (getStreak_ready w Hr). unfold after.
  rewrite (getStreak_ready w Hr).
  destruct (bool_decide _) eqn:E.
  - exists 0. unfold resolved. simpl. repeat split; lia.
  - eexists. unfold resolved. simpl. split; [reflexivity|].
    split; [|split; [|exact I]].
    + pose proof (streak_loop_bounds (tz w) (JS.setHours0 (tz w) (next_reading w)) 0
                    (newest_first (records MOODS_STORE (disk w))) 0) as H.
      rewrite newest_first_length in H. lia.
    + destruct (Date_now_frame w) as (t & w1 & E1 & _ & _ & Hd & _).
      now rewrite E1.
Qed.

Lemma getStreak_bounds_witness :
  ready (logged_13_15 kolkata).2 /\
  exists n,
    resolved (storage.getStreak (logged_13_15 kolkata).2) = Some n /\
    0 <= n <= Z.of_nat (size (records MOODS_STORE (disk (logged_13_15 kolkata).2))).
Proof.
  assert (Hr : ready (logged_13_15 kolkata).2) by by_evaluation.
  split; [exact Hr|].
  destruct (getStreak_bounds _ Hr) as (n & E & B & _).
  exists n. split; assumption.
Defined.






(* ===================================================================== *)
(** ** Weekly data *)
(* ===================================================================== *)



(* ===================================================================== *)
(** ** The journal page *)
(* ===================================================================== *)

Lemma Date_now_eq w : Date_now w = (Resolved (next_reading w), after Date_now w).
Proof. unfold after, Date_now, next_reading. now destruct (clock w). Qed.

Lemma after_Date_now_frame w :
  db (after Date_now w) = db w /\ faults (after Date_now w) = faults w /\
  disk (after Date_now w) = disk w /\ tz (after Date_now w) = tz w /\
  initPromise (after Date_now w) = initPromise w /\
  window_indexedDB (after Date_now w) = window_indexedDB w.
Proof. unfold after, Date_now. destruct (clock w); repeat split. Qed.

Lemma after_reads_frame n w :
  db (after_reads n w) = db w /\ faults (after_reads n w) = faults w /\
  disk (after_reads n w) = disk w /\ tz (after_reads n w) = tz w.
Proof.
  induction n as [|n (IH1 & IH2 & IH3 & IH4)]; [repeat split|].
  unfold after_reads in *. simpl.
  destruct (after_Date_now_frame (Nat.iter n (after Date_now) w)) as (H1 & H2 & H3 & H4 & _).
  repeat split; congruence.
Qed.


Lemma next_reading_commit {V} (S : ObjectStore V) store w :
  next_reading (commit S store w) = next_reading w.
Proof. reflexivity. Qed.








Lemma try_catch_resolves {A} (body : Async A) (fallback : A) w :
  exists a, (try_catch body (fun error => mret fallback) w).1 = Resolved a.
Proof.
  unfold try_catch. destruct (body w) as [[a|e] w']; eexists; reflexivity.
Qed.

(** X14.  The handlers of the pages never reject, whatever the state of
    the connection and of the backend: every storage error is caught
    and the handler resolves with a page state. *)
Theorem handlers_never_reject w js qs ms draft :
  (exists st, (Journal.save draft js w).1 = Resolved st) /\
  (exists st, (Journal.loadJournal js w).1 = Resolved st) /\
  (exists st, (Journal.handleDelete js w).1 = Resolved st) /\
  (exists st, (StressQuiz.handleSubmit qs w).1 = Resolved st) /\
  (exists st, (MoodTracker.loadMoods ms w).1 = Resolved st) /\
  (exists st, (MoodTracker.handleSaveMood ms w).1 = Resolved st) /\
  (exists st, (MoodTracker.handleUpdateMood ms w).1 = Resolved st).
Proof.
  split; [|split; [|split; [|split; [|split; [|split]]]]].
  - unfold Journal.save. destruct (String.eqb _ _); [eexists; reflexivity|].
    apply try_catch_resolves.
  - apply try_catch_resolves.
  - apply try_catch_resolves.
  - apply try_catch_resolves.
  - unfold MoodTracker.loadMoods, MoodTracker.todayStr.
    unfold mbind at 1, Async_bind at 1. apply try_catch_resolves.
  - unfold MoodTracker.handleSaveMood. destruct (String.eqb _ _); [eexists; reflexivity|].
    unfold MoodTracker.todayStr. unfold mbind at 1, Async_bind at 1.
    apply try_catch_resolves.
  - unfold MoodTracker.handleUpdateMood. destruct (String.eqb _ _); [eexists; reflexivity|].
    unfold MoodTracker.todayStr. unfold mbind at 1, Async_bind at 1.
    apply try_catch_resolves.
Qed.

Lemma save_fault draft st w name :
  connected w -> faults w = [Some name] -> JS.trim (Journal.content st) <> "" ->
  Journal.save draft st w
  = (Resolved (Journal.setIsSaving false st),
     set_faults [] (after_reads (Nat.pred (journal_reads st)) w)).
Proof.
  intros (Hdb & _ & _ & Hj) Hf Hc. apply (connected_store JOURNAL_STORE) in Hj.
  unfold Journal.save. apply String.eqb_neq in Hc. rewrite Hc.
  unfold try_catch, Journal.todayStr.
  unfold mbind at 1, Async_bind at 1.
  rewrite (bind_resolved _ _ _ _ _ (Date_now_eq w)).
  set (w1 := after Date_now w).
  destruct (after_Date_now_frame w) as (Hdb1 & Hf1 & Hd1 & _). fold w1 in Hdb1, Hf1, Hd1.
  unfold journal_reads.
  destruct (Journal.lastSaved st) as [t|].
  - change (@mret Async _ Z t) with (fun w0 : World => (@Resolved Z t, w0)).
    unfold mbind at 1, Async_bind at 1.
    unfold journalStorage.saveJournal.
    rewrite (bind_rejected _ _ _ _ _
               (access_fault JOURNAL_STORE _ w1 _ name [] ltac:(congruence)
                  ltac:(congruence) ltac:(rewrite Hd1; exact Hj))).
    reflexivity.
  - rewrite (bind_resolved _ _ _ _ _ (Date_now_eq w1)).
    set (w2 := after Date_now w1).
    destruct (after_Date_now_frame w1) as (Hdb2 & Hf2 & Hd2 & _).
    fold w2 in Hdb2, Hf2, Hd2.
    unfold journalStorage.saveJournal.
    rewrite (bind_rejected _ _ _ _ _
               (access_fault JOURNAL_STORE _ w2 _ name [] ltac:(congruence)
                  ltac:(congruence) ltac:(rewrite Hd2, Hd1; exact Hj))).
    reflexivity.
Qed.

(** X15.  A save the backend fails leaves the journal as it was and the
    page honest: [isDraft] and [lastSaved] keep their values, and
    [isSaving] is back to false. *)
Theorem journal_failed_save_keeps_state draft st w name :
  connected w -> faults w = [Some name] -> JS.trim (Journal.content st) <> "" ->
  resolved (Journal.save draft st w) = Some (Journal.setIsSaving false st) /\
  disk (after (Journal.save draft st) w) = disk w.
Proof.
  intros Hw Hf Hc. unfold resolved, after. rewrite (save_fault draft st w name Hw Hf Hc).
  split; [reflexivity|]. simpl.
  now destruct (after_reads_frame (Nat.pred (journal_reads st)) w) as (_ & _ & Hd & _).
Qed.

Lemma journal_failed_save_keeps_state_witness :
  connected failing_browser /\
  resolved (Journal.handleSave journal_page failing_browser)
  = Some (Journal.setIsSaving false journal_page) /\
  disk (after (Journal.handleSave journal_page) failing_browser) = disk failing_browser.
Proof.
  assert (H : connected failing_browser) by by_evaluation.
  split; [exact H|].
  apply (journal_failed_save_keeps_state false journal_page failing_browser
           "QuotaExceededError" H eq_refl).
  vm_compute. discriminate.
Defined.





(* ===================================================================== *)
(** ** The quiz page *)
(* ===================================================================== *)

Lemma sum_values_insert (m : gmap Z Z) q v :
  m !! q = None -> sum_values (<[q := v]> m) = v + sum_values m.
Proof.
  intros H. unfold sum_values. apply map_fold_insert_L; [|assumption].
  intros. lia.
Qed.

Lemma sum_values_delete (m : gmap Z Z) q :
  sum_values m = default 0 (m !! q) + sum_values (delete q m).
Proof.
  destruct (m !! q) as [v|] eqn:E; simpl.
  - rewrite <- (insert_delete_id m q v E) at 1.
    apply sum_values_insert, lookup_delete_eq.
  - now rewrite delete_id.
Qed.

Lemma sum_values_bounds (m : gmap Z Z) lo hi :
  map_Forall (fun _ v => lo <= v <= hi) m ->
  Z.of_nat (size m) * lo <= sum_values m <= Z.of_nat (size m) * hi.
Proof.
  induction m as [|q v m Hq IH] using map_ind; intros H.
  - unfold sum_values. rewrite map_fold_empty, map_size_empty. lia.
  - apply map_Forall_insert in H as [Hv Hm]; [|assumption].
    rewrite sum_values_insert, map_size_insert_None by assumption.
    specialize (IH Hm). lia.
Qed.

(** X18.  Answering a question adds its value to the score; answering
    it again replaces the earlier answer, so the score moves by the
    difference. *)
Theorem handleAnswer_score st q v :
  StressQuiz.calculateScore (StressQuiz.handleAnswer q v st)
  = StressQuiz.calculateScore st - default 0 (StressQuiz.answers st !! q) + v /\
  StressQuiz.answers (StressQuiz.handleAnswer q v st) !! q = Some v /\
  size (StressQuiz.answers (StressQuiz.handleAnswer q v st))
  = (if StressQuiz.answers st !! q is Some _ then size (StressQuiz.answers st)
     else S (size (StressQuiz.answers st))).
Proof.
  rewrite !calculateScore_sum. unfold StressQuiz.handleAnswer. simpl.
  split; [|split].
  - rewrite (sum_values_delete (StressQuiz.answers st) q).
    rewrite <- (insert_delete_eq (StressQuiz.answers st)).
    rewrite sum_values_insert by apply lookup_delete_eq. lia.
  - apply lookup_insert_eq.
  - destruct (StressQuiz.answers st !! q) as [old|] eqn:E.
    + apply map_size_insert_Some. eauto.
    + now apply map_size_insert_None.
Qed.

Lemma answered_from_ui_handleAnswer st q v :
  answered_from_ui (StressQuiz.answers st) ->
  q ∈ (StressQuiz.Question.id <$> StressQuiz.QUESTIONS) ->
  v ∈ (StressQuiz.ScaleOption.value <$> StressQuiz.SCALE_OPTIONS) ->
  answered_from_ui (StressQuiz.answers (StressQuiz.handleAnswer q v st)).
Proof.
  intros H Hq Hv. unfold StressQuiz.handleAnswer. simpl.
  apply map_Forall_insert_2; auto.
Qed.

Lemma answered_from_ui_handleReset st :
  answered_from_ui (StressQuiz.answers (StressQuiz.handleReset st)).
Proof. apply map_Forall_empty. Qed.

Lemma allAnswered_dom st :
  answered_from_ui (StressQuiz.answers st) -> StressQuiz.allAnswered st = true ->
  dom (StressQuiz.answers st) = list_to_set (StressQuiz.Question.id <$> StressQuiz.QUESTIONS).
Proof.
  intros Hui Hall. apply set_eq. intros q. rewrite elem_of_dom, elem_of_list_to_set. split.
  - intros [v Hv]. now destruct (Hui q v Hv).
  - intros Hq. unfold StressQuiz.allAnswered in Hall.
    rewrite forallb_forall in Hall.
    apply list_elem_of_fmap in Hq as (qq & -> & Hin).
    apply list_elem_of_In in Hin. specialize (Hall qq Hin).
    now apply bool_decide_eq_true_1 in Hall.
Qed.

(** X19.  Once the ten questions are answered with scale options the
    score is between 10 and 50, and the level returned for it is the
    one whose [min]..[max] range contains it. *)
Theorem quiz_score_in_range st :
  answered_from_ui (StressQuiz.answers st) -> StressQuiz.allAnswered st = true ->
  let s := StressQuiz.calculateScore st in
  size (StressQuiz.answers st) = 10%nat /\
  10 <= s <= 50 /\
  StressQuiz.min (StressQuiz.getStressLevel s) <= s <= StressQuiz.max (StressQuiz.getStressLevel s).
Proof.
  intros Hui Hall s.
  assert (Hsize : size (StressQuiz.answers st) = 10%nat).
  { rewrite <- size_dom, (allAnswered_dom st Hui Hall). reflexivity. }
  assert (Hb : map_Forall (fun _ v => 1 <= v <= 5) (StressQuiz.answers st)).
  { intros q v Hv. destruct (Hui q v Hv) as [_ Hin].
    simpl in Hin.
    repeat (apply elem_of_cons in Hin as [->|Hin]; [lia|]). inversion Hin. }
  pose proof (sum_values_bounds _ 1 5 Hb) as H. rewrite Hsize in H.
  fold (StressQuiz.calculateScore st) in s.
  assert (Hs : 10 <= s <= 50) by (unfold s; rewrite calculateScore_sum; lia).
  split; [exact Hsize|]. split; [exact Hs|].
  unfold StressQuiz.getStressLevel. simpl.
  destruct (Z.leb_spec s 25); simpl; [lia|].
  destruct (Z.leb_spec s 40); simpl; lia.
Qed.

Lemma quiz_score_in_range_witness :
  answered_from_ui (StressQuiz.answers quiz_filled) /\
  StressQuiz.allAnswered quiz_filled = true /\
  10 <= StressQuiz.calculateScore quiz_filled <= 50.
Proof.
  assert (Hui : answered_from_ui (StressQuiz.answers quiz_filled)).
  { unfold answered_from_ui. apply (bool_decide_unpack _). vm_compute. exact I. }
  assert (Hall : StressQuiz.allAnswered quiz_filled = true) by (vm_compute; reflexivity).
  split; [exact Hui|]. split; [exact Hall|].
  apply (quiz_score_in_range quiz_filled Hui Hall).
Defined.

(** X20.  The stress level never goes down when the score goes up:
    for any two scores, the higher one gets the same or a higher
    level. *)
Theorem getStressLevel_monotone a b :
  a <= b ->
  level_rank (StressQuiz.label (StressQuiz.getStressLevel a))
  <= level_rank (StressQuiz.label (StressQuiz.getStressLevel b)).
Proof.
  intros H. unfold StressQuiz.getStressLevel. simpl.
  destruct (Z.leb_spec a 25), (Z.leb_spec b 25); simpl; try lia;
    destruct (Z.leb_spec a 40), (Z.leb_spec b 40); simpl; lia.
Qed.

Lemma getStressLevel_monotone_witness :
  level_rank (StressQuiz.label (StressQuiz.getStressLevel 5))
  <= level_rank (StressQuiz.label (StressQuiz.getStressLevel 60)).
Proof. apply getStressLevel_monotone. lia. Defined.

(** X21.  [handleSubmit] shows the result whatever happens to the save:
    in every world it resolves with the results displayed and the score
    set to the sum of the answers. *)
Theorem handleSubmit_always_shows_result st w :
  resolved (StressQuiz.handleSubmit st w)
  = Some (StressQuiz.mkState (StressQuiz.answers st) true (sum_values (StressQuiz.answers st))).
Proof.
  rewrite <- calculateScore_sum.
  unfold resolved, StressQuiz.handleSubmit, try_catch.
  rewrite (bind_resolved _ _ _ _ _ (Date_now_eq w)).
  unfold timezone. unfold mbind at 1, Async_bind at 1.
  rewrite (bind_resolved _ _ _ _ _ (Date_now_eq _)).
  unfold mbind at 1, Async_bind at 1.
  destruct (stressQuizStorage.saveQuizResult _ _) as [[[]|e] w']; reflexivity.
Qed.

(* ===================================================================== *)
(** ** The mood page *)
(* ===================================================================== *)





(** X23.  The calendar cell of a day shows the record stored under that
    day's local date: looking a date up in the list a full scan returned
    gives what a point lookup in the store gives. *)
Theorem getMoodForDate_is_lookup tz date st store :
  inline_keys MOODS_STORE store ->
  MoodTracker.allMoods st = (store_getAll store).1 ->
  MoodTracker.getMoodForDate tz date st = store !! JS.format_yyyy_MM_dd tz date.
Proof.
  intros Hk Hall. unfold MoodTracker.getMoodForDate. rewrite Hall.
  destruct (store_getAll_scan MOODS_STORE store Hk) as (Hin & _ & _).
  set (d := JS.format_yyyy_MM_dd tz date).
  destruct (List.find _ _) as [m|] eqn:E.
  - apply find_some in E as [Hm Hd]. apply String.eqb_eq in Hd.
    apply list_elem_of_In, Hin in Hm. simpl in Hm. now rewrite <- Hd.
  - destruct (store !! d) as [r|] eqn:Hr; [|reflexivity].
    exfalso. pose proof (Hk _ _ Hr) as Hkr. simpl in Hkr.
    assert (Hrin : r ∈ (store_getAll store).1) by (apply Hin; simpl; now rewrite Hkr).
    apply list_elem_of_In in Hrin.
    pose proof (find_none _ _ E r Hrin) as Hf. simpl in Hf.
    rewrite Hkr, String.eqb_refl in Hf. discriminate.
Qed.

Lemma getMoodForDate_is_lookup_witness :
  MoodTracker.getMoodForDate kolkata (jan15 - 43200000)
    (MoodTracker.mkState "" "" None 0 []
       (store_getAll (records MOODS_STORE (disk used_browser))).1)
  = records MOODS_STORE (disk used_browser) !! "2024-01-14".
Proof.
  apply (getMoodForDate_is_lookup kolkata (jan15 - 43200000) _
           (records MOODS_STORE (disk used_browser))); [|reflexivity].
  destruct used_browser_keyed as (H & _). exact H.
Defined.

(* ===================================================================== *)
(** ** The breathing timer *)
(* ===================================================================== *)

Module BreathingFacts.
Import BreathingExercise.

Lemma updatePhase_early t1 t2 st :
  isRunningRef st = true -> t1 - phaseStartTime st < PHASE_DURATIONS (currentPhase st) ->
  updatePhase t1 t2 st = st.
Proof.
  intros Hr He. unfold updatePhase. rewrite Hr. simpl.
  destruct (Z.leb_spec (PHASE_DURATIONS (currentPhase st)) (t1 - phaseStartTime st));
    [lia|reflexivity].
Qed.

Lemma ticks_wait t n st :
  isRunningRef st = true ->
  t + 100 * Z.of_nat n - phaseStartTime st < PHASE_DURATIONS (currentPhase st) ->
  breathing_ticks t n st = st.
Proof.
  intros Hr. revert t. induction n as [|n IH]; intros t He; [reflexivity|].
  cbn [breathing_ticks]. rewrite updatePhase_early by (assumption || lia).
  apply IH. lia.
Qed.

Lemma ticks_app t n k st :
  breathing_ticks t (n + k) st
  = breathing_ticks (t + 100 * Z.of_nat n) k (breathing_ticks t n st).
Proof.
  revert t st. induction n as [|n IH]; intros t st.
  - simpl. now rewrite Z.add_0_r.
  - cbn [Nat.add breathing_ticks]. rewrite IH. f_equal. lia.
Qed.

(** A phase lasts exactly its duration under ideal ticks: nothing
    changes before, and the tick at the duration makes the step. *)
Lemma ticks_phase m st :
  isRunningRef st = true ->
  100 * Z.of_nat (S m) = PHASE_DURATIONS (currentPhase st) ->
  breathing_ticks (phaseStartTime st) (S m) st
  = updatePhase (phaseStartTime st + PHASE_DURATIONS (currentPhase st))
      (phaseStartTime st + PHASE_DURATIONS (currentPhase st)) st.
Proof.
  intros Hr Hd. replace (S m) with (m + 1)%nat by lia.
  rewrite ticks_app, (ticks_wait _ m st Hr) by lia.
  cbn [breathing_ticks]. f_equal; lia.
Qed.

Lemma ticks_phase' p run n i c s syn cs m :
  100 * Z.of_nat (S m) = PHASE_DURATIONS c ->
  breathing_ticks s (S m) (mkState p run n true i c s syn cs)
  = updatePhase (s + PHASE_DURATIONS c) (s + PHASE_DURATIONS c)
      (mkState p run n true i c s syn cs).
Proof. intros H. now apply (ticks_phase m (mkState p run n true i c s syn cs)). Qed.

Lemma updatePhase_due p run n i c s syn cs :
  updatePhase (s + PHASE_DURATIONS c) (s + PHASE_DURATIONS c)
    (mkState p run n true i c s syn cs)
  = match c with
    | inhale => mkState hold run n true i hold (s + 4000) syn (cs ++ [speak_after 50 "Hold"])
    | hold => mkState exhale run n true i exhale (s + 4000) syn
                (cs ++ [speak_after 50 "Breathe out"])
    | exhale => mkState rest run (n + 1) true i rest (s + 4000) syn cs
    | rest => mkState inhale run n true i inhale (s + 1000) syn
                (cs ++ [speak_after 50 "Breathe in"])
    end.
Proof.
  unfold updatePhase. cbn [isRunningRef negb phaseStartTime currentPhase].
  replace (PHASE_DURATIONS c <=? s + PHASE_DURATIONS c - s) with true
    by (symmetry; apply Z.leb_le; lia).
  now destruct c.
Qed.

Lemma one_cycle st :
  isRunningRef st = true -> currentPhase st = inhale ->
  breathing_ticks (phaseStartTime st) 130 st
  = mkState inhale (isRunning st) (cycleCount st + 1) true (intervalRef st) inhale
      (phaseStartTime st + 13000) (synthRef st)
      (((calls st ++ [speak_after 50 "Hold"]) ++ [speak_after 50 "Breathe out"])
         ++ [speak_after 50 "Breathe in"]).
Proof.
  intros Hr Hp. destruct st as [p run n r i c s syn cs].
  cbn [isRunningRef currentPhase] in Hr, Hp. subst r c.
  cbn [phaseStartTime isRunning cycleCount intervalRef synthRef calls].
  change 130%nat with (40 + (40 + (40 + 10)))%nat.
  rewrite ticks_app, ticks_phase', updatePhase_due by reflexivity.
  replace (s + 100 * Z.of_nat 40) with (s + 4000) by lia.
  rewrite ticks_app, ticks_phase', updatePhase_due by reflexivity.
  replace (s + 4000 + 100 * Z.of_nat 40) with (s + 4000 + 4000) by lia.
  rewrite ticks_app, ticks_phase', updatePhase_due by reflexivity.
  replace (s + 4000 + 4000 + 100 * Z.of_nat 40) with (s + 4000 + 4000 + 4000) by lia.
  rewrite ticks_phase', updatePhase_due by reflexivity.
  f_equal. lia.
Qed.

(** X24.  Under ideal 100 ms ticks one breathing cycle takes 13
    seconds: 4 s in, 4 s hold, 4 s out, 1 s rest.  After [k] times 130
    ticks from the start of an inhale the timer is at the start of an
    inhale again, [k] cycles have been counted, and the phase shown is
    the phase of the timer. *)
Theorem breathing_cycles k st :
  isRunningRef st = true -> currentPhase st = inhale -> phase st = inhale ->
  let st' := breathing_ticks (phaseStartTime st) (130 * k) st in
  currentPhase st' = inhale /\ phase st' = inhale /\
  cycleCount st' = cycleCount st + Z.of_nat k /\
  phaseStartTime st' = phaseStartTime st + 13000 * Z.of_nat k /\
  isRunningRef st' = true /\ isRunning st' = isRunning st.
Proof.
  revert st. induction k as [|k IH]; intros st Hr Hc Hp.
  - simpl. repeat split; try assumption; lia.
  - replace (130 * S k)%nat with (130 + 130 * k)%nat by lia.
    cbv zeta. rewrite ticks_app, (one_cycle st Hr Hc).
    set (st1 := mkState _ _ _ _ _ _ _ _ _).
    replace (phaseStartTime st + 100 * Z.of_nat 130) with (phaseStartTime st1)
      by (unfold st1; cbn [phaseStartTime]; lia).
    destruct (IH st1 eq_refl eq_refl eq_refl) as (H1 & H2 & H3 & H4 & H5 & H6).
    split; [exact H1|]. split; [exact H2|].
    split; [rewrite H3; unfold st1; cbn [cycleCount]; lia|].
    split; [rewrite H4; unfold st1; cbn [phaseStartTime]; lia|].
    split; [exact H5|rewrite H6; reflexivity].
Qed.

Lemma breathing_cycles_witness :
  cycleCount (breathing_ticks jan15 390 breathing_started) = 3 /\
  phase (breathing_ticks jan15 390 breathing_started) = inhale.
Proof.
  destruct (breathing_cycles 3 breathing_started eq_refl eq_refl eq_refl)
    as (_ & Hp & Hc & _).
  split; [exact Hc|exact Hp].
Defined.

End BreathingFacts.

(* ===================================================================== *)
(** ** Onboarding *)
(* ===================================================================== *)






